(** * Sales reporting API: validation, query construction and envelopes

    A shallow embedding of the TypeScript sources
      - [constants/index.ts]  (module [Constants]),
      - [utils/index.ts]      (module [Utils]),
      - [db/queries.ts]       (module [Queries]),
      - [routes/sales.ts]     (module [Routes]),
    together with the part of the JavaScript run time (V8, as used by
    Node.js) and of PostgreSQL that these functions call.

    Conventions.
    - A JavaScript string is a Rocq [string] whose characters are UTF-16
      code units below 256.
    - A value of static type [unknown] is an [unknown].
    - A JavaScript number that is an integer, an infinity or NaN is a
      [number]; conversion of a mathematical integer to a number rounds to
      the nearest IEEE-754 binary64 value ([to_number]).  The zero [-0] is
      identified with [0]: the code never distinguishes them.
    - [T | undefined] is [option T]. *)

From Stdlib Require Import ZArith Lia Bool Ascii Sorted.
From stdpp Require Import base option list strings gmap pretty.

Local Open Scope Z_scope.

(** ** JavaScript values *)

Inductive unknown :=
  | Undefined
  | Str (s : string)
  | Other.   (* arrays and nested objects built by the query-string parser,
                null, numbers, ... : everything whose [typeof] is not
                ['string'] and that is not [undefined] *)

Inductive number :=
  | Finite (z : Z)
  | PosInfinity
  | NegInfinity
  | NaN.

#[global] Instance unknown_eq_dec : EqDecision unknown.
Proof. solve_decision. Defined.
#[global] Instance number_eq_dec : EqDecision number.
Proof. solve_decision. Defined.

Module JS.

(** Round a non-negative integer to the nearest binary64 value, ties to
    even (53 bits of precision), ignoring the exponent range. *)
Definition round_to_double (m : Z) : Z :=
  if m <? 2 ^ 53 then m
  else
    let e := Z.log2 m - 52 in
    let q := m / 2 ^ e in
    let r := m mod 2 ^ e in
    let half := 2 ^ (e - 1) in
    let q' := if (half <? r) || ((r =? half) && Z.odd q) then q + 1 else q in
    q' * 2 ^ e.

(** The Number value for a mathematical integer. *)
Definition to_number (z : Z) : number :=
  let v := round_to_double (Z.abs z) in
  if 2 ^ 1024 <=? v then (if z <? 0 then NegInfinity else PosInfinity)
  else Finite (Z.sgn z * v).

(** [ToBoolean] on numbers and on strings. *)
Definition truthy_number (n : number) : bool :=
  match n with
  | Finite z => negb (z =? 0)
  | NaN => false
  | _ => true
  end.

Definition truthy_string (s : string) : bool :=
  match s with "" => false | _ => true end.

(** [if (x)] for [x : number | undefined] and [x : string | undefined]. *)
Definition truthy_onum (x : option number) : bool :=
  match x with Some n => truthy_number n | None => false end.

Definition truthy_ostr (x : option string) : bool :=
  match x with Some s => truthy_string s | None => false end.

(** [a < b] on numbers (false whenever one side is NaN). *)
Definition lt (a b : number) : bool :=
  match a, b with
  | NaN, _ | _, NaN => false
  | Finite x, Finite y => x <? y
  | NegInfinity, (Finite _ | PosInfinity) => true
  | Finite _, PosInfinity => true
  | _, _ => false
  end.

Definition gt (a b : number) : bool := lt b a.

Definition isNaN (n : number) : bool :=
  match n with NaN => true | _ => false end.

(** [a - b] on numbers: the exact difference, rounded. *)
Definition sub (a b : number) : number :=
  match a, b with
  | NaN, _ | _, NaN => NaN
  | Finite x, Finite y => to_number (x - y)
  | PosInfinity, PosInfinity | NegInfinity, NegInfinity => NaN
  | PosInfinity, _ | _, NegInfinity => PosInfinity
  | NegInfinity, _ | _, PosInfinity => NegInfinity
  end.

(** *** Characters *)

Definition code (c : ascii) : Z := Z.of_nat (nat_of_ascii c).

Definition is_digit (c : ascii) : bool := (48 <=? code c) && (code c <=? 57).

Definition digit_value (c : ascii) : Z := code c - 48.

(** [StrWhiteSpaceChar]: TAB, LF, VT, FF, CR, SP and NBSP. *)
Definition is_white (c : ascii) : bool :=
  ((9 <=? code c) && (code c <=? 13)) || (code c =? 32) || (code c =? 160).

Fixpoint skip_white (s : string) : string :=
  match s with
  | String c r => if is_white c then skip_white r else s
  | EmptyString => s
  end.

(** The longest prefix of decimal digits. *)
Fixpoint digits_prefix (s : string) : string :=
  match s with
  | String c r => if is_digit c then String c (digits_prefix r) else ""
  | EmptyString => ""
  end.

Fixpoint digits_value (acc : Z) (s : string) : Z :=
  match s with
  | String c r => digits_value (10 * acc + digit_value c) r
  | EmptyString => acc
  end.

(** [parseInt(s, 10)]: skip leading white space, read an optional sign,
    then the longest run of decimal digits; NaN when that run is empty. *)
Definition parseInt (s : string) : number :=
  let s0 := skip_white s in
  let '(sign, s1) :=
    match s0 with
    | String c r =>
        if Ascii.eqb c "-" then (-1, r)
        else if Ascii.eqb c "+" then (1, r)
        else (1, s0)
    | EmptyString => (1, s0)
    end in
  match digits_prefix s1 with
  | "" => NaN
  | ds => to_number (sign * digits_value 0 ds)
  end.

(** *** Dates *)

(** Day number (days since 1970-01-01) of the civil date [y]-[m]-[d] in the
    proleptic Gregorian calendar, [1 <= m <= 12]; [d] may exceed the length
    of the month, the date then runs into the following month. *)
Definition days_from_civil (y m d : Z) : Z :=
  let y' := if m <=? 2 then y - 1 else y in
  let era := y' / 400 in
  let yoe := y' - era * 400 in
  let mp := if 2 <? m then m - 3 else m + 9 in
  let doy := (153 * mp + 2) / 5 + d - 1 in
  let doe := yoe * 365 + yoe / 4 - yoe / 100 + doy in
  era * 146097 + doe - 719468.

Definition msPerDay : Z := 86400000.

Definition TimeClip (t : Z) : option Z :=
  if 8640000000000000 <? Z.abs t then None else Some t.

(** [new Date(s).getTime()] for a string [s] of the shape [dddd-dd-dd]
    (the only strings [isValidDate] passes to [Date]); [None] is NaN.
    V8 reads the three fields, requires a month in 1..12 and a day in
    1..31 (for every month), and takes the date as UTC midnight. *)
Definition Date_getTime (s : string) : option Z :=
  let y := digits_value 0 (String.substring 0 4 s) in
  let m := digits_value 0 (String.substring 5 2 s) in
  let d := digits_value 0 (String.substring 8 2 s) in
  if (1 <=? m) && (m <=? 12) && (1 <=? d) && (d <=? 31)
  then TimeClip (days_from_civil y m d * msPerDay)
  else None.

End JS.

(** ** Results of computations that may throw *)

Inductive Result (A : Type) :=
  | Return (a : A)
  | Throw (msg : string).
Arguments Return {A} a.
Arguments Throw {A} msg.

#[global] Instance Result_ret : MRet Result := @Return.
#[global] Instance Result_bind : MBind Result := λ A B f m,
  match m with
  | Return a => f a
  | Throw e => Throw e
  end.
#[global] Instance Result_fmap : FMap Result := λ A B f m,
  match m with
  | Return a => Return (f a)
  | Throw e => Throw e
  end.

(** ** The run time and the data base, as the code sees them *)

(** Floating-point library functions and [Date.prototype.toISOString]; a
  [Date] is its time value. *)
Class Runtime := {
  float : Type;
  of_number : number → float;
  parseFloat : string → float;
  toFixed : float → Z → string;
  fdiv : float → float → float;
  fmul : float → float → float;
  toISOString : Z → string;
}.

(** A bound parameter of a statement: [(string | number)[]]. *)
Inductive sqlparam :=
  | PStr (s : string)
  | PNum (n : number).

#[global] Instance sqlparam_eq_dec : EqDecision sqlparam.
Proof. solve_decision. Defined.

(** ** The Gregorian calendar *)

Module Calendar.

Definition is_leap (y : Z) : bool :=
  ((y mod 4 =? 0) && negb (y mod 100 =? 0)) || (y mod 400 =? 0).

Definition days_in_month (y m : Z) : Z :=
  if m =? 2 then (if is_leap y then 29 else 28)
  else if (m =? 4) || (m =? 6) || (m =? 9) || (m =? 11) then 30
  else 31.

(** A calendar date: month 1..12 and a day that exists in that month. *)
Definition calendar_valid (y m d : Z) : bool :=
  (1 <=? m) && (m <=? 12) && (1 <=? d) && (d <=? days_in_month y m).

(** The three numeric fields of a string of the shape [dddd-dd-dd]. *)
Definition year_of (s : string) : Z := JS.digits_value 0 (String.substring 0 4 s).
Definition month_of (s : string) : Z := JS.digits_value 0 (String.substring 5 2 s).
Definition day_of (s : string) : Z := JS.digits_value 0 (String.substring 8 2 s).

End Calendar.

(** ** constants/index.ts *)

Module Constants.

Module HTTP_STATUS.
Definition OK : Z := 200.
Definition BAD_REQUEST : Z := 400.
Definition NOT_FOUND : Z := 404.
Definition TOO_MANY_REQUESTS : Z := 429.
Definition INTERNAL_ERROR : Z := 500.
End HTTP_STATUS.

Module ERROR_CODES.
Definition INVALID_GRANULARITY : string := "INVALID_GRANULARITY".
Definition INVALID_DATE : string := "INVALID_DATE".
Definition INVALID_DATE_RANGE : string := "INVALID_DATE_RANGE".
Definition INVALID_LIMIT : string := "INVALID_LIMIT".
Definition INVALID_OFFSET : string := "INVALID_OFFSET".
Definition MISSING_PARAMS : string := "MISSING_PARAMS".
Definition INTERNAL_ERROR : string := "INTERNAL_ERROR".
Definition NOT_FOUND : string := "NOT_FOUND".
Definition RATE_LIMIT_EXCEEDED : string := "RATE_LIMIT_EXCEEDED".
End ERROR_CODES.

Module ERROR_MESSAGES.
Definition INVALID_DATE_FORMAT : string := "must be in YYYY-MM-DD format".
Definition INVALID_DATE_RANGE : string := "start_date must be before end_date".
Definition INVALID_LIMIT : string := "limit must be between 1 and 100".
Definition INVALID_OFFSET : string := "offset must be a non-negative integer".
End ERROR_MESSAGES.

Definition VALID_GRANULARITIES : list string :=
  ["day"; "week"; "month"; "quarter"; "year"].

Definition VALID_DATE_TRUNC_INTERVALS : gset string :=
  list_to_set VALID_GRANULARITIES.

(** [/^\d{4}-\d{2}-\d{2}$/]: a sequence of single-character atoms, matched
    against the whole string (no flags: [$] is the end of the input). *)
Inductive atom := Digit | Lit (c : ascii).

Definition DATE_REGEX : list atom :=
  replicate 4 Digit ++ [Lit "-"%char] ++ replicate 2 Digit
    ++ [Lit "-"%char] ++ replicate 2 Digit.

Definition atom_matches (a : atom) (c : ascii) : bool :=
  match a with
  | Digit => JS.is_digit c
  | Lit c' => bool_decide (c = c')
  end.

Fixpoint regex_test (re : list atom) (s : string) : bool :=
  match re, s with
  | [], EmptyString => true
  | a :: re', String c s' => atom_matches a c && regex_test re' s'
  | _, _ => false
  end.

Module PAGINATION.
Definition DEFAULT_LIMIT : number := Finite 10.
Definition MAX_LIMIT : number := Finite 100.
Definition MIN_LIMIT : number := Finite 1.
End PAGINATION.

End Constants.

(** ** utils/index.ts *)

Module Utils.
Import Constants.

Definition isValidDate (dateStr : string) : bool :=
  if negb (regex_test DATE_REGEX dateStr) then false
  else
    match JS.Date_getTime dateStr with
    | None => false
    | Some _ => true
    end.

Definition isValidGranularity (value : unknown) : bool :=
  match value with
  | Str s => bool_decide (s ∈ VALID_GRANULARITIES)
  | _ => false
  end.

Definition parseStringParam (value : unknown) : option string :=
  match value with
  | Str s => if 0 <? Z.of_nat (String.length s) then Some s else None
  | _ => None
  end.

Definition parseIntParam (value : unknown) : option number :=
  match value with
  | Str s =>
      let parsed := JS.parseInt s in
      if JS.isNaN parsed then None else Some parsed
  | _ => None
  end.

(** [parseNumericString]: the argument is typed [string]; the rows that
    reach it carry decimal text. *)
Definition parseNumericString (value : string) : number := JS.parseInt value.

Section WithRuntime.
Context {RT : Runtime}.

(** [date.toISOString().split('T')[0]] *)
Fixpoint before_T (s : string) : string :=
  match s with
  | String c r => if bool_decide (c = "T"%char) then "" else String c (before_T r)
  | EmptyString => ""
  end.

Definition formatDateString (date : Z) : string := before_T (toISOString date).

Definition formatDecimal (value : string + float) : float :=
  let num := match value with inl s => parseFloat s | inr x => x end in
  parseFloat (toFixed num 2).

End WithRuntime.

End Utils.


(** ** db/queries.ts *)

(** The rows as PostgreSQL can return them: [sales.amount] and [sales.date]
    are nullable, so SUM, AVG, MIN and MAX over amounts and the truncated
    date can be NULL ([None]) whatever the interfaces declare; COUNT and
    the columns of [users] and [groups] (NOT NULL, SERIAL) cannot. *)
Module TimeSeriesRow.
Record t := {
  period : option Z;
  total_revenue : option string;
  average_revenue : option string;
  sale_count : string;
  min_sale : option number;
  max_sale : option number;
}.
End TimeSeriesRow.

Module UserPerformanceRow.
Record t := {
  user_id : number;
  user_name : string;
  role : string;
  total_revenue : option string;
  average_revenue : option string;
  sale_count : string;
  min_sale : option number;
  max_sale : option number;
  total_count : number;   (* [UserPerformanceRow & { total_count: number }] *)
}.
End UserPerformanceRow.

Module GroupPerformanceRow.
Record t := {
  group_id : number;
  group_name : string;
  total_revenue : option string;
  average_revenue : option string;
  sale_count : string;
  user_count : string;
  min_sale : option number;
  max_sale : option number;
}.
End GroupPerformanceRow.

Module LeaderboardRow.
Record t := {
  user_id : number;
  user_name : string;
  role : string;
  total_revenue : option string;
  sale_count : string;
}.
End LeaderboardRow.

Module ComparisonRow.
Record t := {
  period_label : string;
  total_revenue : option string;
  sale_count : string;
  average_revenue : option string;
}.
End ComparisonRow.

(** [query<T>(text, params)] of [db/index.ts], at each row type it is used
    with; [Throw] is a rejected promise. *)
Class Database := {
  query_TimeSeriesRow : string → list sqlparam → Result (list TimeSeriesRow.t);
  query_UserPerformanceRow : string → list sqlparam → Result (list UserPerformanceRow.t);
  query_GroupPerformanceRow : string → list sqlparam → Result (list GroupPerformanceRow.t);
  query_LeaderboardRow : string → list sqlparam → Result (list LeaderboardRow.t);
  query_ComparisonRow : string → list sqlparam → Result (list ComparisonRow.t);
}.

(** The derived, per-request views of [types/index.ts] and [db/queries.ts]. *)

Module TimeSeriesDataPoint.
Section WithRuntime.
Context {RT : Runtime}.
Record t := {
  period : string;
  total_revenue : number;
  average_revenue : float;
  sale_count : number;
  min_sale : option number;   (* a NULL is passed on as [null] *)
  max_sale : option number;
}.
End WithRuntime.
End TimeSeriesDataPoint.

Module UserPerformance.
Section WithRuntime.
Context {RT : Runtime}.
Record t := {
  user_id : number;
  user_name : string;
  role : string;
  total_revenue : number;
  average_revenue : float;
  sale_count : number;
  min_sale : option number;   (* a NULL is passed on as [null] *)
  max_sale : option number;
}.
End WithRuntime.
End UserPerformance.

Module GroupPerformance.
Section WithRuntime.
Context {RT : Runtime}.
Record t := {
  group_id : number;
  group_name : string;
  total_revenue : number;
  average_revenue : float;
  sale_count : number;
  user_count : number;
  min_sale : option number;
  max_sale : option number;
}.
End WithRuntime.
End GroupPerformance.

Module LeaderboardEntry.
Record t := {
  rank : number;
  user_id : number;
  user_name : string;
  role : string;
  total_revenue : number;
  sale_count : number;
}.
End LeaderboardEntry.

Module PeriodMetrics.
Section WithRuntime.
Context {RT : Runtime}.
Record t := {
  period : string;
  total_revenue : number;
  sale_count : number;
  average_revenue : float;
}.
End WithRuntime.
End PeriodMetrics.

Module PeriodChange.
Section WithRuntime.
Context {RT : Runtime}.
Record t := {
  revenue_change : number;
  revenue_change_pct : float;
  count_change : number;
  count_change_pct : float;
}.
End WithRuntime.
End PeriodChange.

Module PeriodComparison.
Section WithRuntime.
Context {RT : Runtime}.
Record t := {
  current : PeriodMetrics.t;
  previous : PeriodMetrics.t;
  change : PeriodChange.t;
}.
End WithRuntime.
End PeriodComparison.

Module Queries.
Import Constants Utils.

Definition getSafeDateTruncInterval (granularity : string) : Result string :=
  if bool_decide (granularity ∈ VALID_DATE_TRUNC_INTERVALS) then Return granularity
  else Throw ("Invalid granularity: " +:+ granularity).

(** The three locals every builder threads: [conditions], [params] and
    [paramIndex]. *)
Record Builder := {
  conditions : list string;
  params : list sqlparam;
  paramIndex : Z;
}.

Definition start : Builder :=
  {| conditions := []; params := []; paramIndex := 1 |}.

Definition add_condition (c : string) (b : Builder) : Builder :=
  {| conditions := conditions b ++ [c]; params := params b;
     paramIndex := paramIndex b |}.

Definition add_param (v : sqlparam) (b : Builder) : Builder :=
  {| conditions := conditions b; params := params b ++ [v];
     paramIndex := paramIndex b |}.

Definition incr (b : Builder) : Builder :=
  {| conditions := conditions b; params := params b;
     paramIndex := paramIndex b + 1 |}.

(** [$${paramIndex}] *)
Definition placeholder (i : Z) : string := "$" +:+ pretty i.

(** [conditions.push(`<lhs>$${paramIndex}`); params.push(v);] *)
Definition filter (lhs : string) (v : sqlparam) (b : Builder) : Builder :=
  add_param v (add_condition (lhs +:+ placeholder (paramIndex b)) b).

(** [if (x) { ... }] on [x : string | undefined] and [x : number | undefined] *)
Definition when_string (x : option string) (body : string → Builder → Builder)
    (b : Builder) : Builder :=
  match x with
  | Some v => if JS.truthy_string v then body v b else b
  | None => b
  end.

Definition when_number (x : option number) (body : number → Builder → Builder)
    (b : Builder) : Builder :=
  match x with
  | Some v => if JS.truthy_number v then body v b else b
  | None => b
  end.

(** [conditions.length > 0 ? 'WHERE ' + conditions.join(' AND ') : ''] *)
Definition where_clause (conditions : list string) : string :=
  if 0 <? Z.of_nat (length conditions)
  then "WHERE " +:+ String.concat " AND " conditions
  else "".

Definition Statement : Type := string * list sqlparam.

Definition getTimeSeries_statement (granularity : string)
    (startDate endDate : option string) (userId groupId : option number)
    : Result Statement :=
  truncFormat ← getSafeDateTruncInterval granularity;
  let b := start in
  let b := when_string startDate (λ v b, incr (filter "s.date >= " (PStr v) b)) b in
  let b := when_string endDate (λ v b, incr (filter "s.date <= " (PStr v) b)) b in
  let b := when_number userId (λ v b, incr (filter "s.user_id = " (PNum v) b)) b in
  let b := when_number groupId (λ v b, filter "ug.group_id = " (PNum v) b) b in
  let whereClause := where_clause (conditions b) in
  let joinClause :=
    if JS.truthy_onum groupId then "JOIN user_groups ug ON s.user_id = ug.user_id"
    else "" in
  let sql := "
    SELECT
      DATE_TRUNC('" +:+ truncFormat +:+ "', s.date) as period,
      SUM(s.amount) as total_revenue,
      AVG(s.amount) as average_revenue,
      COUNT(*)::integer as sale_count,
      MIN(s.amount) as min_sale,
      MAX(s.amount) as max_sale
    FROM sales s
    " +:+ joinClause +:+ "
    " +:+ whereClause +:+ "
    GROUP BY DATE_TRUNC('" +:+ truncFormat +:+ "', s.date)
    ORDER BY period ASC
  " in
  Return (sql, params b).

Definition getUserPerformance_statement
    (startDate endDate : option string) (userId limit offset : option number)
    : Statement :=
  let b := start in
  let b := when_string startDate (λ v b, incr (filter "s.date >= " (PStr v) b)) b in
  let b := when_string endDate (λ v b, incr (filter "s.date <= " (PStr v) b)) b in
  let b := when_number userId (λ v b, incr (filter "u.id = " (PNum v) b)) b in
  let whereClause := where_clause (conditions b) in
  let limitClause := "" in
  let '(limitClause, b) :=
    match limit with
    | Some v => (" LIMIT " +:+ placeholder (paramIndex b), incr (add_param (PNum v) b))
    | None => (limitClause, b)
    end in
  let '(limitClause, b) :=
    match offset with
    | Some v => (limitClause +:+ " OFFSET " +:+ placeholder (paramIndex b),
                 add_param (PNum v) b)
    | None => (limitClause, b)
    end in
  let sql := "
    SELECT
      user_id,
      user_name,
      role,
      total_revenue,
      average_revenue,
      sale_count,
      min_sale,
      max_sale,
      total_count
    FROM (
      SELECT
        u.id as user_id,
        u.name as user_name,
        u.role,
        SUM(s.amount) as total_revenue,
        AVG(s.amount) as average_revenue,
        COUNT(*)::integer as sale_count,
        MIN(s.amount) as min_sale,
        MAX(s.amount) as max_sale,
        COUNT(*) OVER()::integer as total_count
      FROM users u
      JOIN sales s ON u.id = s.user_id
      " +:+ whereClause +:+ "
      GROUP BY u.id, u.name, u.role
    ) aggregated
    ORDER BY total_revenue DESC
    " +:+ limitClause +:+ "
  " in
  (sql, params b).

Definition getGroupPerformance_statement
    (startDate endDate : option string) (groupId : option number) : Statement :=
  let b := start in
  let b := when_string startDate (λ v b, incr (filter "s.date >= " (PStr v) b)) b in
  let b := when_string endDate (λ v b, incr (filter "s.date <= " (PStr v) b)) b in
  let b := when_number groupId (λ v b, filter "g.id = " (PNum v) b) b in
  let whereClause := where_clause (conditions b) in
  let sql := "
    SELECT
      g.id as group_id,
      g.name as group_name,
      SUM(s.amount) as total_revenue,
      AVG(s.amount) as average_revenue,
      COUNT(*)::integer as sale_count,
      COUNT(DISTINCT ug.user_id)::integer as user_count,
      MIN(s.amount) as min_sale,
      MAX(s.amount) as max_sale
    FROM groups g
    JOIN user_groups ug ON g.id = ug.group_id
    JOIN sales s ON ug.user_id = s.user_id
    " +:+ whereClause +:+ "
    GROUP BY g.id, g.name
    ORDER BY total_revenue DESC
  " in
  (sql, params b).

(** [limit: number = 10]: an [undefined] argument takes the default. *)
Definition getLeaderboard_statement
    (startDate endDate : option string) (limit : option number) : Statement :=
  let limit := default (Finite 10) limit in
  let b := start in
  let b := when_string startDate (λ v b, incr (filter "s.date >= " (PStr v) b)) b in
  let b := when_string endDate (λ v b, incr (filter "s.date <= " (PStr v) b)) b in
  let b := add_param (PNum limit) b in
  let limitParam := paramIndex b in
  let whereClause := where_clause (conditions b) in
  let sql := "
    SELECT
      u.id as user_id,
      u.name as user_name,
      u.role,
      SUM(s.amount) as total_revenue,
      COUNT(*)::integer as sale_count
    FROM users u
    JOIN sales s ON u.id = s.user_id
    " +:+ whereClause +:+ "
    GROUP BY u.id, u.name, u.role
    ORDER BY total_revenue DESC
    LIMIT $" +:+ pretty limitParam +:+ "
  " in
  (sql, params b).

Definition getSummaryStats_statement (startDate endDate : option string) : Statement :=
  let b := start in
  let b := when_string startDate (λ v b, incr (filter "date >= " (PStr v) b)) b in
  let b := when_string endDate (λ v b, filter "date <= " (PStr v) b) b in
  let whereClause := where_clause (conditions b) in
  let sql := "
    SELECT
      SUM(amount) as total_revenue,
      COUNT(*)::integer as total_sales,
      AVG(amount) as average_sale,
      MIN(amount) as min_sale,
      MAX(amount) as max_sale,
      COUNT(DISTINCT user_id)::integer as unique_sellers,
      MIN(date) as first_sale_date,
      MAX(date) as last_sale_date
    FROM sales
    " +:+ whereClause +:+ "
  " in
  (sql, params b).

Definition getPeriodComparison_statement
    (currentStart currentEnd previousStart previousEnd : string) : Statement :=
  let sql := "
    SELECT
      CASE
        WHEN date >= $1 AND date <= $2 THEN 'current'
        WHEN date >= $3 AND date <= $4 THEN 'previous'
      END as period_label,
      SUM(amount) as total_revenue,
      COUNT(*)::integer as sale_count,
      AVG(amount) as average_revenue
    FROM sales
    WHERE (date >= $1 AND date <= $2) OR (date >= $3 AND date <= $4)
    GROUP BY period_label
  " in
  (sql, [PStr currentStart; PStr currentEnd; PStr previousStart; PStr previousEnd]).

(** The helpers of [utils/index.ts] on a column that is [null] at run time.
    [parseNumericString]: [parseInt] converts its argument to a string
    first.  [formatDecimal] and [formatDateString]: the method call
    ([toFixed], [toISOString]) on [null] throws a TypeError.  For a date,
    [None] also stands for the other values the driver can hand over on
    which [toISOString] throws (an infinite date, a date beyond the range
    of [Date]); the callers drop the message. *)
Definition ToString (value : option string) : string := default "null" value.

Section Nullable.
Context {RT : Runtime}.

Definition formatDecimal_of (value : option string) : Result float :=
  match value with
  | Some s => Return (formatDecimal (inl s))
  | None => Throw "TypeError: Cannot read properties of null (reading 'toFixed')"
  end.

Definition formatDateString_of (date : option Z) : Result string :=
  match date with
  | Some d => Return (formatDateString d)
  | None => Throw "TypeError: Cannot read properties of null (reading 'toISOString')"
  end.

End Nullable.

(** The page of [getUserPerformance]: [{ data, total }]. *)
Module UserPerformancePage.
Section WithRuntime.
Context {RT : Runtime}.
Record t := {
  data : list UserPerformance.t;
  total : number;
}.
End WithRuntime.
End UserPerformancePage.

Section WithDatabase.
Context {RT : Runtime} {DB : Database}.

Definition getTimeSeries (granularity : string)
    (startDate endDate : option string) (userId groupId : option number)
    : Result (list TimeSeriesDataPoint.t) :=
  '(sql, params) ← getTimeSeries_statement granularity startDate endDate userId groupId;
  rows ← query_TimeSeriesRow sql params;
  mapM (λ row,
    period ← formatDateString_of (TimeSeriesRow.period row);
    let total_revenue :=
      parseNumericString (ToString (TimeSeriesRow.total_revenue row)) in
    average_revenue ← formatDecimal_of (TimeSeriesRow.average_revenue row);
    mret
      {| TimeSeriesDataPoint.period := period;
         TimeSeriesDataPoint.total_revenue := total_revenue;
         TimeSeriesDataPoint.average_revenue := average_revenue;
         TimeSeriesDataPoint.sale_count :=
           parseNumericString (TimeSeriesRow.sale_count row);
         TimeSeriesDataPoint.min_sale := TimeSeriesRow.min_sale row;
         TimeSeriesDataPoint.max_sale := TimeSeriesRow.max_sale row |}) rows.

Definition getUserPerformance
    (startDate endDate : option string) (userId limit offset : option number)
    : Result UserPerformancePage.t :=
  let '(sql, params) :=
    getUserPerformance_statement startDate endDate userId limit offset in
  rows ← query_UserPerformanceRow sql params;
  let total :=
    match rows with
    | row0 :: _ => UserPerformanceRow.total_count row0
    | [] => Finite 0
    end in
  data ← mapM (λ row,
    let total_revenue :=
      parseNumericString (ToString (UserPerformanceRow.total_revenue row)) in
    average_revenue ← formatDecimal_of (UserPerformanceRow.average_revenue row);
    mret
      {| UserPerformance.user_id := UserPerformanceRow.user_id row;
         UserPerformance.user_name := UserPerformanceRow.user_name row;
         UserPerformance.role := UserPerformanceRow.role row;
         UserPerformance.total_revenue := total_revenue;
         UserPerformance.average_revenue := average_revenue;
         UserPerformance.sale_count :=
           parseNumericString (UserPerformanceRow.sale_count row);
         UserPerformance.min_sale := UserPerformanceRow.min_sale row;
         UserPerformance.max_sale := UserPerformanceRow.max_sale row |}) rows;
  mret {| UserPerformancePage.data := data; UserPerformancePage.total := total |}.

Definition getGroupPerformance
    (startDate endDate : option string) (groupId : option number)
    : Result (list GroupPerformance.t) :=
  let '(sql, params) := getGroupPerformance_statement startDate endDate groupId in
  rows ← query_GroupPerformanceRow sql params;
  mapM (λ row,
    let total_revenue :=
      parseNumericString (ToString (GroupPerformanceRow.total_revenue row)) in
    average_revenue ← formatDecimal_of (GroupPerformanceRow.average_revenue row);
    mret
      {| GroupPerformance.group_id := GroupPerformanceRow.group_id row;
         GroupPerformance.group_name := GroupPerformanceRow.group_name row;
         GroupPerformance.total_revenue := total_revenue;
         GroupPerformance.average_revenue := average_revenue;
         GroupPerformance.sale_count :=
           parseNumericString (GroupPerformanceRow.sale_count row);
         GroupPerformance.user_count :=
           parseNumericString (GroupPerformanceRow.user_count row);
         GroupPerformance.min_sale := GroupPerformanceRow.min_sale row;
         GroupPerformance.max_sale := GroupPerformanceRow.max_sale row |}) rows.

Definition getLeaderboard
    (startDate endDate : option string) (limit : option number)
    : Result (list LeaderboardEntry.t) :=
  let '(sql, params) := getLeaderboard_statement startDate endDate limit in
  rows ← query_LeaderboardRow sql params;
  mret (imap (λ index row,
    {| LeaderboardEntry.rank := Finite (Z.of_nat index + 1);
       LeaderboardEntry.user_id := LeaderboardRow.user_id row;
       LeaderboardEntry.user_name := LeaderboardRow.user_name row;
       LeaderboardEntry.role := LeaderboardRow.role row;
       LeaderboardEntry.total_revenue :=
         parseNumericString (ToString (LeaderboardRow.total_revenue row));
       LeaderboardEntry.sale_count :=
         parseNumericString (LeaderboardRow.sale_count row) |}) rows).

(** One side of the comparison: the metrics of the row found for the label,
    zeros when [find] returned [undefined]. *)
Definition period_metrics (label : string) (found : option ComparisonRow.t)
    : Result PeriodMetrics.t :=
  let total_revenue :=
    match found with
    | Some r => parseNumericString (ToString (ComparisonRow.total_revenue r))
    | None => Finite 0
    end in
  let sale_count :=
    match found with
    | Some r => parseNumericString (ComparisonRow.sale_count r)
    | None => Finite 0
    end in
  average_revenue ←
    match found with
    | Some r => formatDecimal_of (ComparisonRow.average_revenue r)
    | None => Return (of_number (Finite 0))
    end;
  mret {| PeriodMetrics.period := label;
          PeriodMetrics.total_revenue := total_revenue;
          PeriodMetrics.sale_count := sale_count;
          PeriodMetrics.average_revenue := average_revenue |}.

(** [base > 0 ? formatDecimal((delta / base) * 100) : 0] *)
Definition change_pct (delta base : number) : float :=
  if JS.gt base (Finite 0)
  then formatDecimal
         (inr (fmul (fdiv (of_number delta) (of_number base)) (of_number (Finite 100))))
  else of_number (Finite 0).

Definition getPeriodComparison
    (currentStart currentEnd previousStart previousEnd : string)
    : Result PeriodComparison.t :=
  let '(sql, params) :=
    getPeriodComparison_statement currentStart currentEnd previousStart previousEnd in
  rows ← query_ComparisonRow sql params;
  let currentData :=
    List.find (λ r, String.eqb (ComparisonRow.period_label r) "current") rows in
  let previousData :=
    List.find (λ r, String.eqb (ComparisonRow.period_label r) "previous") rows in
  current ← period_metrics (currentStart +:+ " to " +:+ currentEnd) currentData;
  previous ← period_metrics (previousStart +:+ " to " +:+ previousEnd) previousData;
  let revenueChange :=
    JS.sub (PeriodMetrics.total_revenue current) (PeriodMetrics.total_revenue previous) in
  let countChange :=
    JS.sub (PeriodMetrics.sale_count current) (PeriodMetrics.sale_count previous) in
  mret {| PeriodComparison.current := current;
          PeriodComparison.previous := previous;
          PeriodComparison.change :=
            {| PeriodChange.revenue_change := revenueChange;
               PeriodChange.revenue_change_pct :=
                 change_pct revenueChange (PeriodMetrics.total_revenue previous);
               PeriodChange.count_change := countChange;
               PeriodChange.count_change_pct :=
                 change_pct countChange (PeriodMetrics.sale_count previous) |} |}.

End WithDatabase.

End Queries.

(** ** routes/sales.ts *)

(** [ApiResponse<T>] and [ApiError] of [types/index.ts]. *)
Record Period := { period_start : string; period_end : string }.

Record Meta := {
  meta_total : option number;
  meta_limit : option number;
  meta_offset : option number;
  meta_period : option Period;
}.

Record ApiResponse (T : Type) := {
  success : bool;
  data : T;
  meta : option Meta;
}.
Arguments success {T} _.
Arguments data {T} _.
Arguments meta {T} _.

Record ApiError := {
  error_success : bool;
  error_code : string;
  error_message : string;
}.

(** What a handler leaves in [res]: a status and a JSON body. *)
Inductive Response (T : Type) :=
  | Json (status : Z) (body : ApiResponse T)
  | Error (status : Z) (body : ApiError).
Arguments Json {T} status body.
Arguments Error {T} status body.

(** [req.query]: the parsed query string. *)
Record Request := { query : gmap string unknown }.

Module Routes.
Import Constants Utils Queries.

(** [req.query.<key>] *)
Definition param (req : Request) (key : string) : unknown :=
  default Undefined (query req !! key).

Definition sendError {T} (status : Z) (code message : string) : Response T :=
  Error status {| error_success := false; error_code := code; error_message := message |}.

(** [res.json(response)]: the status stays at its default. *)
Definition json {T} (response : ApiResponse T) : Response T :=
  Json HTTP_STATUS.OK response.

(** A [string | undefined] passed where [unknown] is expected. *)
Definition as_unknown (x : option string) : unknown :=
  match x with Some s => Str s | None => Undefined end.

(** [x && !isValidDate(x)] *)
Definition present_and_invalid (x : option string) : bool :=
  match x with
  | Some s => JS.truthy_string s && negb (isValidDate s)
  | None => false
  end.

(** [startDate && endDate && startDate > endDate]; [>] on strings compares
    code units lexicographically. *)
Definition out_of_order (startDate endDate : option string) : bool :=
  match startDate, endDate with
  | Some s, Some e => JS.truthy_string s && JS.truthy_string e && String.ltb e s
  | _, _ => false
  end.

(** [x || fallback] on [x : string | undefined]. *)
Definition or_else (x : option string) (fallback : string) : string :=
  match x with
  | Some s => if JS.truthy_string s then s else fallback
  | None => fallback
  end.

Definition out_of_range (limit : number) : bool :=
  JS.lt limit PAGINATION.MIN_LIMIT || JS.gt limit PAGINATION.MAX_LIMIT.

Section Handlers.
Context {RT : Runtime} {DB : Database}.

Definition timeseries (req : Request) : Response (list TimeSeriesDataPoint.t) :=
  let granularityParam := parseStringParam (param req "granularity") in
  let startDate := parseStringParam (param req "start_date") in
  let endDate := parseStringParam (param req "end_date") in
  let userId := parseIntParam (param req "user_id") in
  let groupId := parseIntParam (param req "group_id") in
  let granularity :=
    match granularityParam with
    | Some g => if isValidGranularity (Str g) then g else "month"
    | None => "month"
    end in
  if bool_decide (granularityParam ≠ None)
     && negb (isValidGranularity (as_unknown granularityParam))
  then sendError HTTP_STATUS.BAD_REQUEST ERROR_CODES.INVALID_GRANULARITY
         ("Invalid granularity. Must be one of: "
            +:+ String.concat ", " VALID_GRANULARITIES)
  else if present_and_invalid startDate
  then sendError HTTP_STATUS.BAD_REQUEST ERROR_CODES.INVALID_DATE
         ("start_date " +:+ ERROR_MESSAGES.INVALID_DATE_FORMAT)
  else if present_and_invalid endDate
  then sendError HTTP_STATUS.BAD_REQUEST ERROR_CODES.INVALID_DATE
         ("end_date " +:+ ERROR_MESSAGES.INVALID_DATE_FORMAT)
  else if out_of_order startDate endDate
  then sendError HTTP_STATUS.BAD_REQUEST ERROR_CODES.INVALID_DATE_RANGE
         ERROR_MESSAGES.INVALID_DATE_RANGE
  else
    match getTimeSeries granularity startDate endDate userId groupId with
    | Throw _ =>
        sendError HTTP_STATUS.INTERNAL_ERROR ERROR_CODES.INTERNAL_ERROR
          "Failed to fetch time series data"
    | Return data =>
        json {| success := true;
                data := data;
                meta := Some
                  {| meta_total := Some (Finite (Z.of_nat (length data)));
                     meta_limit := None;
                     meta_offset := None;
                     meta_period := Some
                       {| period_start :=
                            or_else startDate
                              (match head data with
                               | Some d => TimeSeriesDataPoint.period d
                               | None => ""
                               end);
                          period_end :=
                            or_else endDate
                              (match last data with
                               | Some d => TimeSeriesDataPoint.period d
                               | None => ""
                               end) |} |} |}
    end.

Definition users (req : Request) : Response (list UserPerformance.t) :=
  let startDate := parseStringParam (param req "start_date") in
  let endDate := parseStringParam (param req "end_date") in
  let userId := parseIntParam (param req "user_id") in
  let limit := parseIntParam (param req "limit") in
  let offset := parseIntParam (param req "offset") in
  if present_and_invalid startDate
  then sendError HTTP_STATUS.BAD_REQUEST ERROR_CODES.INVALID_DATE
         ("start_date " +:+ ERROR_MESSAGES.INVALID_DATE_FORMAT)
  else if present_and_invalid endDate
  then sendError HTTP_STATUS.BAD_REQUEST ERROR_CODES.INVALID_DATE
         ("end_date " +:+ ERROR_MESSAGES.INVALID_DATE_FORMAT)
  else if out_of_order startDate endDate
  then sendError HTTP_STATUS.BAD_REQUEST ERROR_CODES.INVALID_DATE_RANGE
         ERROR_MESSAGES.INVALID_DATE_RANGE
  else if match limit with Some l => out_of_range l | None => false end
  then sendError HTTP_STATUS.BAD_REQUEST ERROR_CODES.INVALID_LIMIT
         ERROR_MESSAGES.INVALID_LIMIT
  else if match offset with Some o => JS.lt o (Finite 0) | None => false end
  then sendError HTTP_STATUS.BAD_REQUEST ERROR_CODES.INVALID_OFFSET
         ERROR_MESSAGES.INVALID_OFFSET
  else
    match getUserPerformance startDate endDate userId limit offset with
    | Throw _ =>
        sendError HTTP_STATUS.INTERNAL_ERROR ERROR_CODES.INTERNAL_ERROR
          "Failed to fetch user performance data"
    | Return page =>
        json {| success := true;
                data := UserPerformancePage.data page;
                meta := Some
                  {| meta_total := Some (UserPerformancePage.total page);
                     meta_limit := limit;
                     meta_offset := offset;
                     meta_period := None |} |}
    end.

Definition groups (req : Request) : Response (list GroupPerformance.t) :=
  let startDate := parseStringParam (param req "start_date") in
  let endDate := parseStringParam (param req "end_date") in
  let groupId := parseIntParam (param req "group_id") in
  if present_and_invalid startDate
  then sendError HTTP_STATUS.BAD_REQUEST ERROR_CODES.INVALID_DATE
         ("start_date " +:+ ERROR_MESSAGES.INVALID_DATE_FORMAT)
  else if present_and_invalid endDate
  then sendError HTTP_STATUS.BAD_REQUEST ERROR_CODES.INVALID_DATE
         ("end_date " +:+ ERROR_MESSAGES.INVALID_DATE_FORMAT)
  else if out_of_order startDate endDate
  then sendError HTTP_STATUS.BAD_REQUEST ERROR_CODES.INVALID_DATE_RANGE
         ERROR_MESSAGES.INVALID_DATE_RANGE
  else
    match getGroupPerformance startDate endDate groupId with
    | Throw _ =>
        sendError HTTP_STATUS.INTERNAL_ERROR ERROR_CODES.INTERNAL_ERROR
          "Failed to fetch group performance data"
    | Return data =>
        json {| success := true;
                data := data;
                meta := Some
                  {| meta_total := Some (Finite (Z.of_nat (length data)));
                     meta_limit := None;
                     meta_offset := None;
                     meta_period := None |} |}
    end.

Definition leaderboard (req : Request) : Response (list LeaderboardEntry.t) :=
  let startDate := parseStringParam (param req "start_date") in
  let endDate := parseStringParam (param req "end_date") in
  let limit := default PAGINATION.DEFAULT_LIMIT (parseIntParam (param req "limit")) in
  if present_and_invalid startDate
  then sendError HTTP_STATUS.BAD_REQUEST ERROR_CODES.INVALID_DATE
         ("start_date " +:+ ERROR_MESSAGES.INVALID_DATE_FORMAT)
  else if present_and_invalid endDate
  then sendError HTTP_STATUS.BAD_REQUEST ERROR_CODES.INVALID_DATE
         ("end_date " +:+ ERROR_MESSAGES.INVALID_DATE_FORMAT)
  else if out_of_order startDate endDate
  then sendError HTTP_STATUS.BAD_REQUEST ERROR_CODES.INVALID_DATE_RANGE
         ERROR_MESSAGES.INVALID_DATE_RANGE
  else if out_of_range limit
  then sendError HTTP_STATUS.BAD_REQUEST ERROR_CODES.INVALID_LIMIT
         ERROR_MESSAGES.INVALID_LIMIT
  else
    match getLeaderboard startDate endDate (Some limit) with
    | Throw _ =>
        sendError HTTP_STATUS.INTERNAL_ERROR ERROR_CODES.INTERNAL_ERROR
          "Failed to fetch leaderboard data"
    | Return data =>
        json {| success := true;
                data := data;
                meta := Some
                  {| meta_total := Some (Finite (Z.of_nat (length data)));
                     meta_limit := None;
                     meta_offset := None;
                     meta_period := None |} |}
    end.

Definition compare (req : Request) : Response PeriodComparison.t :=
  let currentStart := parseStringParam (param req "current_start") in
  let currentEnd := parseStringParam (param req "current_end") in
  let previousStart := parseStringParam (param req "previous_start") in
  let previousEnd := parseStringParam (param req "previous_end") in
  match currentStart, currentEnd, previousStart, previousEnd with
  | Some currentStart, Some currentEnd, Some previousStart, Some previousEnd =>
      if negb (JS.truthy_string currentStart) || negb (JS.truthy_string currentEnd)
         || negb (JS.truthy_string previousStart) || negb (JS.truthy_string previousEnd)
      then sendError HTTP_STATUS.BAD_REQUEST ERROR_CODES.MISSING_PARAMS
             "All date parameters are required: current_start, current_end, previous_start, previous_end"
      else
        let dates := [currentStart; currentEnd; previousStart; previousEnd] in
        match List.find (λ date, negb (isValidDate date)) dates with
        | Some date =>
            sendError HTTP_STATUS.BAD_REQUEST ERROR_CODES.INVALID_DATE
              ("Invalid date format: " +:+ date +:+ ". Use YYYY-MM-DD")
        | None =>
            match getPeriodComparison currentStart currentEnd previousStart previousEnd with
            | Throw _ =>
                sendError HTTP_STATUS.INTERNAL_ERROR ERROR_CODES.INTERNAL_ERROR
                  "Failed to fetch period comparison"
            | Return data =>
                json {| success := true; data := data; meta := None |}
            end
        end
  | _, _, _, _ =>
      sendError HTTP_STATUS.BAD_REQUEST ERROR_CODES.MISSING_PARAMS
        "All date parameters are required: current_start, current_end, previous_start, previous_end"
  end.

End Handlers.
End Routes.

(** ** The summary: [getSummaryStats] and its route *)

Module SummaryStatsRow.
(** The aggregate has no GROUP BY: it always yields one row, whose SUM, AVG,
    MIN and MAX are NULL ([None]) when no sale matches. *)
Record t := {
  total_revenue : option string;
  total_sales : string;
  average_sale : option string;
  min_sale : option number;
  max_sale : option number;
  unique_sellers : string;
  first_sale_date : option Z;
  last_sale_date : option Z;
}.
End SummaryStatsRow.

Module SummaryStats.
Section WithRuntime.
Context {RT : Runtime}.
Record t := {
  total_revenue : number;
  total_sales : number;
  average_sale : float;
  min_sale : option number;
  max_sale : option number;
  unique_sellers : number;
  date_range_start : string;
  date_range_end : string;
}.
End WithRuntime.
End SummaryStats.

(** [query<SummaryStatsRow>(text, params)] *)
Class SummaryDatabase := {
  query_SummaryStatsRow : string → list sqlparam → Result (list SummaryStatsRow.t);
}.

Module Summary.
Import Constants Utils Queries Routes.

Section WithDatabase.
Context {RT : Runtime} {DB : SummaryDatabase}.

Definition getSummaryStats (startDate endDate : option string)
    : Result SummaryStats.t :=
  let '(sql, params) := getSummaryStats_statement startDate endDate in
  rows ← query_SummaryStatsRow sql params;
  row ← match rows with
        | row :: _ => Return row
        | [] => Throw "TypeError: Cannot read properties of undefined (reading 'total_revenue')"
        end;
  let total_revenue := parseNumericString (ToString (SummaryStatsRow.total_revenue row)) in
  let total_sales := parseNumericString (SummaryStatsRow.total_sales row) in
  average_sale ← formatDecimal_of (SummaryStatsRow.average_sale row);
  let unique_sellers := parseNumericString (SummaryStatsRow.unique_sellers row) in
  start ← formatDateString_of (SummaryStatsRow.first_sale_date row);
  end_ ← formatDateString_of (SummaryStatsRow.last_sale_date row);
  mret {| SummaryStats.total_revenue := total_revenue;
          SummaryStats.total_sales := total_sales;
          SummaryStats.average_sale := average_sale;
          SummaryStats.min_sale := SummaryStatsRow.min_sale row;
          SummaryStats.max_sale := SummaryStatsRow.max_sale row;
          SummaryStats.unique_sellers := unique_sellers;
          SummaryStats.date_range_start := start;
          SummaryStats.date_range_end := end_ |}.

Definition summary (req : Request) : Response SummaryStats.t :=
  let startDate := parseStringParam (param req "start_date") in
  let endDate := parseStringParam (param req "end_date") in
  if present_and_invalid startDate
  then sendError HTTP_STATUS.BAD_REQUEST ERROR_CODES.INVALID_DATE
         ("start_date " +:+ ERROR_MESSAGES.INVALID_DATE_FORMAT)
  else if present_and_invalid endDate
  then sendError HTTP_STATUS.BAD_REQUEST ERROR_CODES.INVALID_DATE
         ("end_date " +:+ ERROR_MESSAGES.INVALID_DATE_FORMAT)
  else if out_of_order startDate endDate
  then sendError HTTP_STATUS.BAD_REQUEST ERROR_CODES.INVALID_DATE_RANGE
         ERROR_MESSAGES.INVALID_DATE_RANGE
  else
    match getSummaryStats startDate endDate with
    | Throw _ =>
        sendError HTTP_STATUS.INTERNAL_ERROR ERROR_CODES.INTERNAL_ERROR
          "Failed to fetch summary statistics"
    | Return data =>
        json {| success := true; data := data; meta := None |}
    end.

End WithDatabase.
End Summary.

(** ** seed.ts *)

Module Seed.

(** What [seedDatabase] does to the outside: calls on the client and lines
    on the console. *)
Inductive call :=
  | Connect
  | Query (text : string)
  | End
  | Log (message : string).

#[global] Instance call_eq_dec : EqDecision call.
Proof. solve_decision. Defined.

(** The client: the outcome of the call issued last, given every call so
    far (the last of the list is the one issued).  Rows are reduced to
    their column [exists]. *)
Definition Client : Type := list call → Result (list bool).

(** A computation that extends the history of calls. *)
Definition Run (A : Type) : Type := list call → list call * Result A.

Definition ret {A} (a : A) : Run A := λ h, (h, Return a).

Definition throw {A} (msg : string) : Run A := λ h, (h, Throw msg).

Definition and_then {A B} (m : Run A) (k : A → Run B) : Run B := λ h,
  match m h with
  | (h', Return a) => k a h'
  | (h', Throw e) => (h', Throw e)
  end.

(** [await pgclient.<call>] *)
Definition issue (client : Client) (c : call) : Run (list bool) := λ h,
  (h ++ [c], client (h ++ [c])).

(** [console.log(message)] *)
Definition log (message : string) : Run unit := λ h,
  (h ++ [Log message], Return ()).

Definition dq : string := String (ascii_of_nat 34) "".

Definition usersTableExistsQuery : string :=
  "SELECT EXISTS (SELECT FROM pg_tables WHERE schemaname = 'public' AND tablename = 'users');".

Definition createUsersTableQuery : string := "
    CREATE TABLE IF NOT EXISTS " +:+ dq +:+ "users" +:+ dq +:+ " (
      " +:+ dq +:+ "id" +:+ dq +:+ " SERIAL,
      " +:+ dq +:+ "name" +:+ dq +:+ " VARCHAR(50) NOT NULL,
      " +:+ dq +:+ "role" +:+ dq +:+ " VARCHAR(50) NOT NULL,
      PRIMARY KEY (" +:+ dq +:+ "id" +:+ dq +:+ ")
    );".

Definition createGroupsTableQuery : string := "
    CREATE TABLE IF NOT EXISTS " +:+ dq +:+ "groups" +:+ dq +:+ " (
      " +:+ dq +:+ "id" +:+ dq +:+ " SERIAL,
      " +:+ dq +:+ "name" +:+ dq +:+ " VARCHAR(50) NOT NULL,
      PRIMARY KEY (" +:+ dq +:+ "id" +:+ dq +:+ ")
    );".

Definition createUserGroupsTableQuery : string := "
    CREATE TABLE IF NOT EXISTS " +:+ dq +:+ "user_groups" +:+ dq +:+ " (
      " +:+ dq +:+ "user_id" +:+ dq +:+ " SERIAL,
      " +:+ dq +:+ "group_id" +:+ dq +:+ " SERIAL,
      FOREIGN KEY(user_id) REFERENCES users(id),
      FOREIGN KEY(group_id) REFERENCES groups(id)
    );".

Definition createSalesTableQuery : string := "
    CREATE TABLE IF NOT EXISTS " +:+ dq +:+ "sales" +:+ dq +:+ " (
      " +:+ dq +:+ "id" +:+ dq +:+ " SERIAL,
      " +:+ dq +:+ "user_id" +:+ dq +:+ " SERIAL,
      " +:+ dq +:+ "amount" +:+ dq +:+ " INTEGER,
      " +:+ dq +:+ "date" +:+ dq +:+ " DATE,
      FOREIGN KEY(user_id) REFERENCES users(id),
      PRIMARY KEY (" +:+ dq +:+ "id" +:+ dq +:+ ")
    );".

Section WithFiles.
(** The contents of the four seed files, read when the module loads. *)
Variables usersSqlInsert groupsSqlInsert userGroupsSqlInsert salesSqlInsert : string.

Definition seedDatabase (pgclient : Client) : Run unit :=
  and_then (issue pgclient Connect) (λ _,
  and_then (issue pgclient (Query usersTableExistsQuery)) (λ rows,
  and_then (match rows with
            | usersTableExists :: _ => ret usersTableExists
            | [] => throw "TypeError: Cannot read properties of undefined (reading 'exists')"
            end) (λ usersTableExists,
  if usersTableExists : bool then
    and_then (log "Skipping seeders.") (λ _,
    and_then (issue pgclient End) (λ _,
    ret ()))
  else
    and_then (log "Seeding database...") (λ _,
    and_then (issue pgclient (Query createUsersTableQuery)) (λ _,
    and_then (log "Created users table.") (λ _,
    and_then (issue pgclient (Query usersSqlInsert)) (λ _,
    and_then (log "Seeded users table.") (λ _,
    and_then (issue pgclient (Query createGroupsTableQuery)) (λ _,
    and_then (log "Created groups table.") (λ _,
    and_then (issue pgclient (Query groupsSqlInsert)) (λ _,
    and_then (log "Seeded groups table.") (λ _,
    and_then (issue pgclient (Query createUserGroupsTableQuery)) (λ _,
    and_then (log "Created user_groups table.") (λ _,
    and_then (issue pgclient (Query userGroupsSqlInsert)) (λ _,
    and_then (log "Seeded user_group table.") (λ _,
    and_then (issue pgclient (Query createSalesTableQuery)) (λ _,
    and_then (log "Created sales table.") (λ _,
    and_then (issue pgclient (Query salesSqlInsert)) (λ _,
    and_then (log "Seeded sales table.") (λ _,
    and_then (issue pgclient End) (λ _,
    ret ()))))))))))))))))))))).

(** The statements of a full seeding, in the order of the source. *)
Definition statements : list string :=
  [ usersTableExistsQuery;
    createUsersTableQuery; usersSqlInsert;
    createGroupsTableQuery; groupsSqlInsert;
    createUserGroupsTableQuery; userGroupsSqlInsert;
    createSalesTableQuery; salesSqlInsert ].

End WithFiles.

(** The statements a history holds, in order. *)
Definition queries (h : list call) : list string :=
  omap (λ c, match c with Query text => Some text | _ => None end) h.

End Seed.

(** ** The statements, as PostgreSQL evaluates them

    The two statements whose answers the code inspects
    ([getUserPerformance] reads [total_count], [getPeriodComparison] looks
    rows up by [period_label]) are given their relational meaning over the
    tables of [seed.ts]. *)

Module Postgres.
Import Constants Utils Queries.

Module User.
Record t := { id : Z; name : string; role : string }.
End User.

Module Sale.
Record t := { id : Z; user_id : Z; amount : Z; date : Z (* day number *) }.
End Sale.

Record Tables := { users : list User.t; sales : list Sale.t }.

(** [date_in] on text of the shape [dddd-dd-dd], the shape of every date the
    handlers let through: the day number, or an error for a date that does
    not exist (PostgreSQL has no year 0000). *)
Definition date_in (s : string) : Result Z :=
  let y := Calendar.year_of s in
  let m := Calendar.month_of s in
  let d := Calendar.day_of s in
  if regex_test DATE_REGEX s && (1 <=? y) && Calendar.calendar_valid y m d
  then Return (JS.days_from_civil y m d)
  else Throw ("invalid input syntax for type date: " +:+ s).

(** An integer bound to a placeholder that is compared with an [integer]
    column: a value outside the 32 bits of the type is refused. *)
Definition int_in (n : number) : Result Z :=
  match n with
  | Finite z =>
      if (-2147483648 <=? z) && (z <=? 2147483647) then Return z
      else Throw "value is out of range for type integer"
  | _ => Throw "invalid input syntax for type integer"
  end.

(** A bound for LIMIT or OFFSET, a [bigint]. *)
Definition count_in (n : number) : Result nat :=
  match n with
  | Finite z =>
      if z <? 0 then Throw "LIMIT and OFFSET must not be negative"
      else if z <=? 9223372036854775807 then Return (Z.to_nat z)
      else Throw "value is out of range for type bigint"
  | _ => Throw "invalid input syntax for type bigint"
  end.

(** The value bound by [if (x) { ... params.push(x) }]: [None] when the
    clause is not part of the statement. *)
Definition bound_date (x : option string) : Result (option Z) :=
  match x with
  | Some s => if JS.truthy_string s then d ← date_in s; mret (Some d) else mret None
  | None => mret None
  end.

Definition bound_id (x : option number) : Result (option Z) :=
  match x with
  | Some n => if JS.truthy_number n then z ← int_in n; mret (Some z) else mret None
  | None => mret None
  end.

Definition bound_count (x : option number) : Result (option nat) :=
  match x with
  | Some n => c ← count_in n; mret (Some c)
  | None => mret None
  end.

Definition in_range (from to : option Z) (d : Z) : bool :=
  from_option (λ f, f <=? d) true from && from_option (λ t, d <=? t) true to.

Definition sum (l : list Z) : Z := foldr Z.add 0 l.
Definition minimum (l : list Z) : Z := foldr Z.min (default 0 (head l)) l.
Definition maximum (l : list Z) : Z := foldr Z.max (default 0 (head l)) l.

(** One group of the inner SELECT of [getUserPerformance]. *)
Record UserGroup := {
  group_user : User.t;
  group_amounts : list Z;
}.

(** ORDER BY total_revenue DESC: insertion into a descending list (the
    order among equal totals is the engine's choice; here, input order). *)
Fixpoint insert_desc (g : UserGroup) (l : list UserGroup) : list UserGroup :=
  match l with
  | [] => [g]
  | h :: t =>
      if sum (group_amounts h) <? sum (group_amounts g) then g :: l
      else h :: insert_desc g t
  end.

Definition order_desc (l : list UserGroup) : list UserGroup :=
  foldr insert_desc [] l.

Section Statements.
(** The text PostgreSQL prints for AVG over amounts of the given sum and
    count. *)
Variable avg_text : Z → Z → string.

(** FROM users u JOIN sales s ON u.id = s.user_id WHERE ... GROUP BY u.id,
    u.name, u.role: one group per user with at least one matching sale. *)
Definition user_groups (db : Tables) (from to uid : option Z) : list UserGroup :=
  omap (λ u,
    if from_option (λ i, User.id u =? i) true uid then
      match List.filter (λ s, (User.id u =? Sale.user_id s)
                              && in_range from to (Sale.date s)) (sales db) with
      | [] => None
      | ss => Some {| group_user := u; group_amounts := Sale.amount <$> ss |}
      end
    else None) (users db).

Definition user_row (total_count : nat) (g : UserGroup) : UserPerformanceRow.t :=
  let amounts := group_amounts g in
  {| UserPerformanceRow.user_id := Finite (User.id (group_user g));
     UserPerformanceRow.user_name := User.name (group_user g);
     UserPerformanceRow.role := User.role (group_user g);
     UserPerformanceRow.total_revenue := Some (pretty (sum amounts));
     UserPerformanceRow.average_revenue :=
       Some (avg_text (sum amounts) (Z.of_nat (length amounts)));
     UserPerformanceRow.sale_count := pretty (Z.of_nat (length amounts));
     UserPerformanceRow.min_sale := Some (Finite (minimum amounts));
     UserPerformanceRow.max_sale := Some (Finite (maximum amounts));
     UserPerformanceRow.total_count := Finite (Z.of_nat total_count) |}.

(** OFFSET then LIMIT on the ordered rows. *)
Definition page {A} (limit offset : option nat) (l : list A) : list A :=
  let l := from_option (λ o, drop o l) l offset in
  from_option (λ n, take n l) l limit.

(** The answer to the statement of [getUserPerformance_statement]. *)
Definition user_performance (db : Tables)
    (startDate endDate : option string) (userId limit offset : option number)
    : Result (list UserPerformanceRow.t) :=
  from ← bound_date startDate;
  to ← bound_date endDate;
  uid ← bound_id userId;
  lim ← bound_count limit;
  off ← bound_count offset;
  let aggregated := user_groups db from to uid in
  let ordered := user_row (length aggregated) <$> order_desc aggregated in
  mret (page lim off ordered).

(** CASE ... END as period_label *)
Definition period_label (c1 c2 p1 p2 : Z) (s : Sale.t) : option string :=
  if (c1 <=? Sale.date s) && (Sale.date s <=? c2) then Some "current"
  else if (p1 <=? Sale.date s) && (Sale.date s <=? p2) then Some "previous"
  else None.

Definition comparison_row (label : string) (amounts : list Z) : ComparisonRow.t :=
  {| ComparisonRow.period_label := label;
     ComparisonRow.total_revenue := Some (pretty (sum amounts));
     ComparisonRow.sale_count := pretty (Z.of_nat (length amounts));
     ComparisonRow.average_revenue :=
       Some (avg_text (sum amounts) (Z.of_nat (length amounts))) |}.

(** The answer to the statement of [getPeriodComparison_statement]: the
    sales in one of the two ranges, grouped by label (row order is the
    engine's choice; here, current first). *)
Definition period_comparison (db : Tables)
    (currentStart currentEnd previousStart previousEnd : string)
    : Result (list ComparisonRow.t) :=
  c1 ← date_in currentStart;
  c2 ← date_in currentEnd;
  p1 ← date_in previousStart;
  p2 ← date_in previousEnd;
  let kept :=
    List.filter (λ s, ((c1 <=? Sale.date s) && (Sale.date s <=? c2))
                      || ((p1 <=? Sale.date s) && (Sale.date s <=? p2))) (sales db) in
  mret (omap (λ label,
    match List.filter (λ s, bool_decide (period_label c1 c2 p1 p2 s = Some label)) kept with
    | [] => None
    | ss => Some (comparison_row label (Sale.amount <$> ss))
    end) ["current"; "previous"]).

End Statements.
End Postgres.

(** * Vocabulary of the properties *)

Module Vocabulary.
Import Constants Utils Queries Routes.

(** A filter with its value forgotten: only whether the builder's test
    ([if (x)], or [x !== undefined] for [limit] and [offset]) passes. *)
Definition mask_string (x : option string) : option string :=
  if JS.truthy_ostr x then Some "x" else None.

Definition mask_number (x : option number) : option number :=
  if JS.truthy_onum x then Some (Finite 1) else None.

Definition mask_defined (x : option number) : option number :=
  match x with Some _ => Some (Finite 1) | None => None end.

(** The parameter a filter contributes. *)
Definition supplied_string (x : option string) : list sqlparam :=
  match x with
  | Some s => if JS.truthy_string s then [PStr s] else []
  | None => []
  end.

Definition supplied_number (x : option number) : list sqlparam :=
  match x with
  | Some n => if JS.truthy_number n then [PNum n] else []
  | None => []
  end.

Definition defined_number (x : option number) : list sqlparam :=
  match x with Some n => [PNum n] | None => [] end.

(** [req] with the parameter [key] set to the string [value], and with the
    parameter removed. *)
Definition with_param (key value : string) (req : Request) : Request :=
  {| query := <[key := Str value]> (query req) |}.

Definition without_param (key : string) (req : Request) : Request :=
  {| query := delete key (query req) |}.

(** The status and the error code of a response. *)
Definition status_of {T} (r : Response T) : Z :=
  match r with Json s _ | Error s _ => s end.

Definition code_of {T} (r : Response T) : option string :=
  match r with Error _ b => Some (error_code b) | Json _ _ => None end.

(** The three date checks every handler but [compare] runs first. *)
Definition date_checks_pass (req : Request) : bool :=
  let startDate := parseStringParam (param req "start_date") in
  let endDate := parseStringParam (param req "end_date") in
  negb (present_and_invalid startDate) && negb (present_and_invalid endDate)
  && negb (out_of_order startDate endDate).

(** A limit in [1, 100]; a negative offset. *)
Definition in_limit_range (l : number) : Prop := ∃ z, l = Finite z ∧ 1 <= z <= 100.

Definition negative (o : number) : Prop :=
  o = NegInfinity ∨ ∃ z, o = Finite z ∧ z < 0.

(** The integer a string begins with: an optional minus sign and the
    longest non-empty run of decimal digits after it. *)
Definition integer_prefix (s : string) : option Z :=
  let '(sign, r) :=
    match s with
    | String c r => if Ascii.eqb c "-" then (-1, r) else (1, s)
    | EmptyString => (1, s)
    end in
  match JS.digits_prefix r with
  | "" => None
  | ds => Some (sign * JS.digits_value 0 ds)
  end.

(** The order of ORDER BY total_revenue DESC on two consecutive groups. *)
Definition larger_first (a b : Postgres.UserGroup) : Prop :=
  Postgres.sum (Postgres.group_amounts b) <= Postgres.sum (Postgres.group_amounts a).


End Vocabulary.

(** * Sample run time, tables and data bases

    Concrete instances on which the handlers evaluate. *)

Module Sample.
Import Constants Utils Queries Routes.

(** The civil date of a day number (the inverse of [JS.days_from_civil]). *)
Definition civil_from_days (z : Z) : Z * Z * Z :=
  let z := z + 719468 in
  let era := z / 146097 in
  let doe := z - era * 146097 in
  let yoe := (doe - doe / 1460 + doe / 36524 - doe / 146096) / 365 in
  let doy := doe - (365 * yoe + yoe / 4 - yoe / 100) in
  let mp := (5 * doy + 2) / 153 in
  let d := doy - (153 * mp + 2) / 5 + 1 in
  let m := if mp <? 10 then mp + 3 else mp - 9 in
  let y := yoe + era * 400 + (if m <=? 2 then 1 else 0) in
  (y, m, d).

Definition pad (width : nat) (n : Z) : string :=
  let digits := pretty n in
  String.concat "" (replicate (width - String.length digits) "0") +:+ digits.

(** A run time whose doubles are whole numbers, and whose dates are at UTC
    midnight.  It agrees with JavaScript on the whole numbers and dates the
    samples hold; on a fraction it truncates, where JavaScript keeps two
    decimals. *)
Definition whole_numbers : Runtime := {|
  float := number;
  of_number := id;
  parseFloat := JS.parseInt;
  toFixed := λ x _, match x with Finite z => pretty z | _ => "NaN" end;
  fdiv := λ a b,
    match a, b with
    | Finite x, Finite y => if y =? 0 then NaN else Finite (x / y)
    | _, _ => NaN
    end;
  fmul := λ a b,
    match a, b with
    | Finite x, Finite y => Finite (x * y)
    | _, _ => NaN
    end;
  toISOString := λ t,
    let '(y, m, d) := civil_from_days (t / JS.msPerDay) in
    pad 4 y +:+ "-" +:+ pad 2 m +:+ "-" +:+ pad 2 d +:+ "T00:00:00.000Z";
|}.

(** AVG printed as its integer part. *)
Definition avg_text (sum count : Z) : string := pretty (sum / count).

Definition day (y m d : Z) : Z := JS.days_from_civil y m d.

(** One seller with one sale. *)
Definition one_seller : Postgres.Tables :=
  {| Postgres.users :=
       [ {| Postgres.User.id := 1; Postgres.User.name := "Alice";
            Postgres.User.role := "Agent" |} ];
     Postgres.sales :=
       [ {| Postgres.Sale.id := 1; Postgres.Sale.user_id := 1;
            Postgres.Sale.amount := 100; Postgres.Sale.date := day 2021 1 15 |} ] |}.

(** A data base over [tables] that answers the unfiltered, paged statement
    of [getUserPerformance] (parameters: limit, offset) and the statement of
    [getPeriodComparison], and the time-series statement with [buckets]. *)
Definition database (tables : Postgres.Tables)
    (buckets : list TimeSeriesRow.t) : Database := {|
  query_TimeSeriesRow := λ _ _, Return buckets;
  query_UserPerformanceRow := λ _ params,
    match params with
    | [PNum limit; PNum offset] =>
        Postgres.user_performance avg_text tables None None None
          (Some limit) (Some offset)
    | _ => Throw "unsupported statement"
    end;
  query_GroupPerformanceRow := λ _ _, Return [];
  query_LeaderboardRow := λ _ _, Return [];
  query_ComparisonRow := λ _ params,
    match params with
    | [PStr cs; PStr ce; PStr ps; PStr pe] =>
        Postgres.period_comparison avg_text tables cs ce ps pe
    | _ => Throw "unsupported statement"
    end;
|}.

Definition two_buckets : list TimeSeriesRow.t :=
  [ {| TimeSeriesRow.period := Some (day 2021 1 1 * JS.msPerDay);
       TimeSeriesRow.total_revenue := Some "1000000";
       TimeSeriesRow.average_revenue := Some "25000";
       TimeSeriesRow.sale_count := "40";
       TimeSeriesRow.min_sale := Some (Finite 1000);
       TimeSeriesRow.max_sale := Some (Finite 50000) |};
    {| TimeSeriesRow.period := Some (day 2021 2 1 * JS.msPerDay);
       TimeSeriesRow.total_revenue := Some "1200000";
       TimeSeriesRow.average_revenue := Some "26000";
       TimeSeriesRow.sale_count := "46";
       TimeSeriesRow.min_sale := Some (Finite 1100);
       TimeSeriesRow.max_sale := Some (Finite 49000) |} ].

(** The data points of [two_buckets]: period, total revenue, average
    revenue, sale count, smallest and largest sale. *)
Definition two_points : list (@TimeSeriesDataPoint.t whole_numbers) :=
  [ @TimeSeriesDataPoint.Build_t whole_numbers
      "2021-01-01" (Finite 1000000) (Finite 25000) (Finite 40)
      (Some (Finite 1000)) (Some (Finite 50000));
    @TimeSeriesDataPoint.Build_t whole_numbers
      "2021-02-01" (Finite 1200000) (Finite 26000) (Finite 46)
      (Some (Finite 1100)) (Some (Finite 49000)) ].

Definition sample_database : Database := database one_seller two_buckets.

(** A request from its query parameters. *)
Definition request (params : list (string * string)) : Request :=
  {| query := list_to_map (prod_map id Str <$> params) |}.

End Sample.

(** * Further vocabulary *)

Module Probes.
Import Constants Utils Queries Routes.

(** [req] with the parameter [key] holding any value. *)
Definition with_value (key : string) (value : unknown) (req : Request) : Request :=
  {| query := <[key := value]> (query req) |}.

(** The numbers of the placeholders [$n] of a statement, in order of
    occurrence. *)
Fixpoint placeholders (sql : string) : list Z :=
  match sql with
  | String c rest =>
      if Ascii.eqb c "$" then
        match JS.digits_prefix rest with
        | "" => placeholders rest
        | ds => JS.digits_value 0 ds :: placeholders rest
        end
      else placeholders rest
  | EmptyString => []
  end.




(** The granularity [timeseries] passes to [getTimeSeries]. *)
Definition granularity_of (req : Request) : string :=
  match parseStringParam (param req "granularity") with
  | Some g => if isValidGranularity (Str g) then g else "month"
  | None => "month"
  end.

(** The data base failed on a statement, or answered with a row that
    [null] holds of. *)
Definition failed_or_null {Row} (answer : Result (list Row)) (null : Row → Prop)
    : Prop :=
  (∃ message, answer = Throw message)
  ∨ (∃ rows row, answer = Return rows ∧ row ∈ rows ∧ null row).

(** A first row without NULLs in the columns [getSummaryStats] dereferences. *)
Definition complete (row : SummaryStatsRow.t) : Prop :=
  is_Some (SummaryStatsRow.average_sale row)
  ∧ is_Some (SummaryStatsRow.first_sale_date row)
  ∧ is_Some (SummaryStatsRow.last_sale_date row).


(** The days of the years up to [y], but for a constant: 365 a year and
    the leap days. *)
Definition days_through (y : Z) : Z := 365 * y + y / 4 - y / 100 + y / 400.

(** A date of the shape [dddd-dd-dd] as one number, ordered as year, month
    and day are. *)
Definition date_key (s : string) : Z :=
  Calendar.year_of s * 10000 + Calendar.month_of s * 100 + Calendar.day_of s.

(** The four seed files, and a run of [seedDatabase] from the start of the
    process: the calls made and the outcome. *)
Record SeedFiles := {
  users_sql : string;
  groups_sql : string;
  user_groups_sql : string;
  sales_sql : string;
}.

Definition seeding (files : SeedFiles) (pgclient : Seed.Client)
    : list Seed.call * Result unit :=
  Seed.seedDatabase (users_sql files) (groups_sql files) (user_groups_sql files)
    (sales_sql files) pgclient [].

Definition seed_statements (files : SeedFiles) : list string :=
  Seed.statements (users_sql files) (groups_sql files) (user_groups_sql files)
    (sales_sql files).

End Probes.

(** * Further sample data bases and clients *)

Module Fixtures.
Import Constants Utils Queries Routes.

(** A data base that cannot be reached. *)
Definition unreachable : Database := {|
  query_TimeSeriesRow := λ _ _, Throw "connect ECONNREFUSED";
  query_UserPerformanceRow := λ _ _, Throw "connect ECONNREFUSED";
  query_GroupPerformanceRow := λ _ _, Throw "connect ECONNREFUSED";
  query_LeaderboardRow := λ _ _, Throw "connect ECONNREFUSED";
  query_ComparisonRow := λ _ _, Throw "connect ECONNREFUSED";
|}.

Definition unreachable_summary : SummaryDatabase := {|
  query_SummaryStatsRow := λ _ _, Throw "connect ECONNREFUSED";
|}.

(** The row of the summary statement over no sale: the counts are 0, the
    other aggregates NULL. *)
Definition no_sale : SummaryStatsRow.t := {|
  SummaryStatsRow.total_revenue := None;
  SummaryStatsRow.total_sales := "0";
  SummaryStatsRow.average_sale := None;
  SummaryStatsRow.min_sale := None;
  SummaryStatsRow.max_sale := None;
  SummaryStatsRow.unique_sellers := "0";
  SummaryStatsRow.first_sale_date := None;
  SummaryStatsRow.last_sale_date := None;
|}.

Definition empty_sales : SummaryDatabase := {|
  query_SummaryStatsRow := λ _ _, Return [no_sale];
|}.

(** A data base whose sales of January 2021 carry no amount: the sum, the
    average, the minimum and the maximum of the bucket are NULL. *)
Definition unpriced : Database := {|
  query_TimeSeriesRow := λ _ _, Return
    [ {| TimeSeriesRow.period := Some (Sample.day 2021 1 1 * JS.msPerDay);
         TimeSeriesRow.total_revenue := None;
         TimeSeriesRow.average_revenue := None;
         TimeSeriesRow.sale_count := "2";
         TimeSeriesRow.min_sale := None;
         TimeSeriesRow.max_sale := None |} ];
  query_UserPerformanceRow := λ _ _, Return [];
  query_GroupPerformanceRow := λ _ _, Return [];
  query_LeaderboardRow := λ _ _, Return [];
  query_ComparisonRow := λ _ _, Return [];
|}.

(** Three sellers, as the leaderboard statement returns them. *)
Definition podium : list LeaderboardRow.t :=
  [ {| LeaderboardRow.user_id := Finite 3; LeaderboardRow.user_name := "Carol";
       LeaderboardRow.role := "Agent"; LeaderboardRow.total_revenue := Some "900";
       LeaderboardRow.sale_count := "4" |};
    {| LeaderboardRow.user_id := Finite 1; LeaderboardRow.user_name := "Alice";
       LeaderboardRow.role := "Agent"; LeaderboardRow.total_revenue := Some "500";
       LeaderboardRow.sale_count := "7" |};
    {| LeaderboardRow.user_id := Finite 2; LeaderboardRow.user_name := "Bob";
       LeaderboardRow.role := "Admin"; LeaderboardRow.total_revenue := Some "100";
       LeaderboardRow.sale_count := "1" |} ].

Definition ranking : Database := {|
  query_TimeSeriesRow := λ _ _, Return [];
  query_UserPerformanceRow := λ _ _, Return [];
  query_GroupPerformanceRow := λ _ _, Return [];
  query_LeaderboardRow := λ _ _, Return podium;
  query_ComparisonRow := λ _ _, Return [];
|}.

(** Seed files of one row each. *)
Definition files : Probes.SeedFiles := {|
  Probes.users_sql := "INSERT INTO users (name, role) VALUES ('Alice', 'Agent');";
  Probes.groups_sql := "INSERT INTO groups (name) VALUES ('East');";
  Probes.user_groups_sql := "INSERT INTO user_groups (user_id, group_id) VALUES (1, 1);";
  Probes.sales_sql := "INSERT INTO sales (user_id, amount, date) VALUES (1, 100, '2021-01-15');";
|}.

(** A client on a data base that holds the users table already, and one
    whose role may not create tables. *)
Definition seeded : Seed.Client := λ _, Return [true].

Definition denied : Seed.Client := λ h,
  match last h with
  | Some (Seed.Query text) =>
      if String.eqb text Seed.createUsersTableQuery
      then Throw "permission denied for schema public"
      else Return [false]
  | _ => Return []
  end.

End Fixtures.

(** * Properties *)

(** ** Date validation *)

Module DateValidation.
Import Constants Utils Calendar.

Lemma digit_value_range c : JS.is_digit c = true → 0 <= JS.digit_value c <= 9.
Proof. unfold JS.is_digit, JS.digit_value. lia. Qed.

(** A string matched by [DATE_REGEX] is ten characters, digits around two
    hyphens. *)
Lemma DATE_REGEX_shape s :
  regex_test DATE_REGEX s = true →
  ∃ y1 y2 y3 y4 m1 m2 d1 d2,
    s = String y1 (String y2 (String y3 (String y4 (String "-"
          (String m1 (String m2 (String "-" (String d1 (String d2 "")))))))))
    ∧ Forall (λ c, JS.is_digit c = true) [y1; y2; y3; y4; m1; m2; d1; d2].
Proof.
  intros Hs. unfold DATE_REGEX in Hs. cbn [replicate app] in Hs.
  do 10 (destruct s as [|? s]; [discriminate Hs|];
         cbn [regex_test] in Hs; apply andb_prop in Hs as [? Hs]).
  destruct s; [clear Hs|discriminate Hs].
  cbn [atom_matches] in *.
  repeat match goal with
         | H : bool_decide _ = true |- _ => apply bool_decide_eq_true_1 in H; subst
         end.
  do 8 eexists. split; [reflexivity|]. repeat constructor; assumption.
Qed.

Lemma days_from_civil_range y m d :
  0 <= y <= 9999 → 1 <= m <= 12 → 1 <= d <= 31 →
  -100000000 <= JS.days_from_civil y m d <= 100000000.
Proof.
  intros Hy Hm Hd. unfold JS.days_from_civil.
  destruct (Z.leb_spec m 2), (Z.ltb_spec 2 m); try lia;
    Z.div_mod_to_equations; lia.
Qed.

(** What [isValidDate] decides: the pattern, a month in 1..12 and a day in
    1..31. *)
Lemma isValidDate_decides s :
  isValidDate s =
    regex_test DATE_REGEX s
    && ((1 <=? month_of s) && (month_of s <=? 12)
        && (1 <=? day_of s) && (day_of s <=? 31)).
Proof.
  unfold isValidDate.
  destruct (regex_test DATE_REGEX s) eqn:Hre; [|reflexivity]. simpl.
  unfold JS.Date_getTime. fold (month_of s) (day_of s) (year_of s).
  destruct ((1 <=? month_of s) && (month_of s <=? 12)
            && (1 <=? day_of s) && (day_of s <=? 31)) eqn:Hf; [|reflexivity].
  assert (0 <= year_of s <= 9999) as Hy.
  { destruct (DATE_REGEX_shape s Hre) as (y1&y2&y3&y4&m1&m2&d1&d2&->&Hd).
    repeat match goal with
           | H : Forall _ (_ :: _) |- _ =>
               apply Forall_cons in H as [?%digit_value_range H]
           end.
    unfold year_of; cbn; lia. }
  apply andb_prop in Hf as [[[Hm1 Hm2]%andb_prop Hd1]%andb_prop Hd2].
  pose proof (days_from_civil_range (year_of s) (month_of s) (day_of s)) as Hr.
  unfold JS.TimeClip, JS.msPerDay.
  case Z.ltb_spec; [lia|reflexivity].
Qed.

(** Every calendar date written [YYYY-MM-DD] is accepted. *)
Lemma isValidDate_accepts_calendar_dates s :
  regex_test DATE_REGEX s = true →
  calendar_valid (year_of s) (month_of s) (day_of s) = true →
  isValidDate s = true.
Proof.
  intros Hre Hc. rewrite isValidDate_decides, Hre. simpl.
  unfold calendar_valid, days_in_month in Hc.
  repeat case_match; lia.
Qed.

(** The strings the tests of [utils.test.ts] list are decided as the tests
    expect. *)
Lemma isValidDate_tested :
  isValidDate "2021-01-01" = true ∧ isValidDate "2021-12-31" = true
  ∧ isValidDate "2000-06-15" = true
  ∧ isValidDate "2021/01/01" = false ∧ isValidDate "01-01-2021" = false
  ∧ isValidDate "2021-1-1" = false ∧ isValidDate "invalid" = false
  ∧ isValidDate "" = false
  ∧ isValidDate "2021-13-01" = false ∧ isValidDate "2021-00-01" = false.
Proof. repeat split; reflexivity. Qed.

(** C1.  [isValidDate] is documented to check that the string represents a
    valid date, but it accepts February 29 of the non-leap year 2021: the
    pattern matches, the day is at most 31, and [Date] reads the string as
    March 1. *)
Theorem isValidDate_accepts_feb_29_of_2021 :
  regex_test DATE_REGEX "2021-02-29" = true
  ∧ calendar_valid 2021 2 29 = false
  ∧ isValidDate "2021-02-29" = true
  ∧ JS.Date_getTime "2021-02-29" = JS.Date_getTime "2021-03-01".
Proof. repeat split; reflexivity. Qed.

End DateValidation.

(** ** Values and the text of the statements *)

Module Binding.
Import Constants Utils Queries Vocabulary.

Lemma getSafeDateTruncInterval_whitelist g :
  getSafeDateTruncInterval g =
    if bool_decide (g ∈ VALID_GRANULARITIES) then Return g
    else Throw ("Invalid granularity: " +:+ g).
Proof.
  unfold getSafeDateTruncInterval, VALID_DATE_TRUNC_INTERVALS.
  rewrite (bool_decide_ext (g ∈ list_to_set VALID_GRANULARITIES)
             (g ∈ VALID_GRANULARITIES)); [reflexivity|].
  apply elem_of_list_to_set.
Qed.

Ltac cases_of_filters :=
  repeat match goal with
         | x : option string |- _ => destruct x as [[|? ?]|]
         | x : option number |- _ => destruct x as [[[| ? | ?]| | |]|]
         end.

Lemma timeseries_text g sd ed uid gid :
  fst <$> getTimeSeries_statement g sd ed uid gid
  = fst <$> getTimeSeries_statement g (mask_string sd) (mask_string ed)
              (mask_number uid) (mask_number gid).
Proof.
  unfold getTimeSeries_statement.
  destruct (getSafeDateTruncInterval g); [|reflexivity].
  cases_of_filters; reflexivity.
Qed.

Lemma timeseries_params g sd ed uid gid :
  snd <$> getTimeSeries_statement g sd ed uid gid
  = (λ _, supplied_string sd ++ supplied_string ed
            ++ supplied_number uid ++ supplied_number gid)
      <$> getSafeDateTruncInterval g.
Proof.
  unfold getTimeSeries_statement.
  destruct (getSafeDateTruncInterval g); [|reflexivity].
  cases_of_filters; reflexivity.
Qed.

Lemma users_text sd ed uid limit offset :
  (getUserPerformance_statement sd ed uid limit offset).1
  = (getUserPerformance_statement (mask_string sd) (mask_string ed)
       (mask_number uid) (mask_defined limit) (mask_defined offset)).1.
Proof. destruct limit, offset; cases_of_filters; reflexivity. Qed.

Lemma users_params sd ed uid limit offset :
  (getUserPerformance_statement sd ed uid limit offset).2
  = supplied_string sd ++ supplied_string ed ++ supplied_number uid
      ++ defined_number limit ++ defined_number offset.
Proof. destruct limit, offset; cases_of_filters; reflexivity. Qed.

Lemma groups_text sd ed gid :
  (getGroupPerformance_statement sd ed gid).1
  = (getGroupPerformance_statement (mask_string sd) (mask_string ed)
       (mask_number gid)).1.
Proof. cases_of_filters; reflexivity. Qed.

Lemma groups_params sd ed gid :
  (getGroupPerformance_statement sd ed gid).2
  = supplied_string sd ++ supplied_string ed ++ supplied_number gid.
Proof. cases_of_filters; reflexivity. Qed.

Lemma leaderboard_text sd ed limit :
  (getLeaderboard_statement sd ed limit).1
  = (getLeaderboard_statement (mask_string sd) (mask_string ed) None).1.
Proof. destruct limit; cases_of_filters; reflexivity. Qed.

Lemma leaderboard_params sd ed limit :
  (getLeaderboard_statement sd ed limit).2
  = supplied_string sd ++ supplied_string ed ++ [PNum (default (Finite 10) limit)].
Proof. destruct limit; cases_of_filters; reflexivity. Qed.

Lemma summary_text sd ed :
  (getSummaryStats_statement sd ed).1
  = (getSummaryStats_statement (mask_string sd) (mask_string ed)).1.
Proof. cases_of_filters; reflexivity. Qed.

Lemma summary_params sd ed :
  (getSummaryStats_statement sd ed).2 = supplied_string sd ++ supplied_string ed.
Proof. cases_of_filters; reflexivity. Qed.

(** C2, as the code has it.  In each of the six statements the text is
    fixed by which filters pass the builder's test (and, for the time
    series, by the granularity, which is interpolated as a literal once it
    is found among the five whitelisted words); the values of dates, ids,
    limit and offset are exactly the bound parameters, in order. *)
Theorem statements_bind_filter_values :
  (∀ g sd ed uid gid,
     fst <$> getTimeSeries_statement g sd ed uid gid
     = fst <$> getTimeSeries_statement g (mask_string sd) (mask_string ed)
                 (mask_number uid) (mask_number gid)
     ∧ snd <$> getTimeSeries_statement g sd ed uid gid
       = (λ _, supplied_string sd ++ supplied_string ed
                 ++ supplied_number uid ++ supplied_number gid)
           <$> getSafeDateTruncInterval g
     ∧ getSafeDateTruncInterval g
       = if bool_decide (g ∈ VALID_GRANULARITIES) then Return g
         else Throw ("Invalid granularity: " +:+ g))
  ∧ (∀ sd ed uid limit offset,
       (getUserPerformance_statement sd ed uid limit offset).1
       = (getUserPerformance_statement (mask_string sd) (mask_string ed)
            (mask_number uid) (mask_defined limit) (mask_defined offset)).1
       ∧ (getUserPerformance_statement sd ed uid limit offset).2
         = supplied_string sd ++ supplied_string ed ++ supplied_number uid
             ++ defined_number limit ++ defined_number offset)
  ∧ (∀ sd ed gid,
       (getGroupPerformance_statement sd ed gid).1
       = (getGroupPerformance_statement (mask_string sd) (mask_string ed)
            (mask_number gid)).1
       ∧ (getGroupPerformance_statement sd ed gid).2
         = supplied_string sd ++ supplied_string ed ++ supplied_number gid)
  ∧ (∀ sd ed limit,
       (getLeaderboard_statement sd ed limit).1
       = (getLeaderboard_statement (mask_string sd) (mask_string ed) None).1
       ∧ (getLeaderboard_statement sd ed limit).2
         = supplied_string sd ++ supplied_string ed
             ++ [PNum (default (Finite 10) limit)])
  ∧ (∀ sd ed,
       (getSummaryStats_statement sd ed).1
       = (getSummaryStats_statement (mask_string sd) (mask_string ed)).1
       ∧ (getSummaryStats_statement sd ed).2
         = supplied_string sd ++ supplied_string ed)
  ∧ (∀ cs ce ps pe,
       (getPeriodComparison_statement cs ce ps pe).1
       = (getPeriodComparison_statement "" "" "" "").1
       ∧ (getPeriodComparison_statement cs ce ps pe).2
         = [PStr cs; PStr ce; PStr ps; PStr pe]).
Proof.
  repeat split;
    auto using timeseries_text, timeseries_params, getSafeDateTruncInterval_whitelist,
      users_text, users_params, groups_text, groups_params, leaderboard_text,
      leaderboard_params, summary_text, summary_params.
Qed.

(** C2, as stated, fails: the granularity is a supplied value and the text
    changes with it. *)
Lemma sql_text_varies_with_granularity :
  ∃ day_sql month_sql,
    getTimeSeries_statement "day" None None None None = Return (day_sql, [])
    ∧ getTimeSeries_statement "month" None None None None = Return (month_sql, [])
    ∧ String.eqb day_sql month_sql = false.
Proof. do 2 eexists. repeat split; vm_compute; reflexivity. Qed.

End Binding.

(** ** Requests that differ in one parameter *)

Module Requests.
Import Constants Utils Queries Routes Vocabulary.

Lemma param_with_eq key value req : param (with_param key value req) key = Str value.
Proof. unfold param, with_param. simpl. by rewrite lookup_insert_eq. Qed.

Lemma param_with_ne key key' value req :
  key ≠ key' → param (with_param key value req) key' = param req key'.
Proof. intros. unfold param, with_param. simpl. by rewrite lookup_insert_ne. Qed.

Lemma param_without_eq key req : param (without_param key req) key = Undefined.
Proof. unfold param, without_param. simpl. by rewrite lookup_delete_eq. Qed.

Lemma param_without_ne key key' req :
  key ≠ key' → param (without_param key req) key' = param req key'.
Proof. intros. unfold param, without_param. simpl. by rewrite lookup_delete_ne. Qed.

Lemma param_absent key req : query req !! key = None → param req key = Undefined.
Proof. unfold param. by intros ->. Qed.

Ltac params :=
  repeat first
    [ rewrite param_with_eq | rewrite param_without_eq
    | rewrite param_with_ne by done | rewrite param_without_ne by done ].

End Requests.

(** ** Mapping rows with a function that may throw *)

Module Traversal.

Lemma mapM_Return {A B} (f : A → Result B) (l : list A) (k : list B) :
  mapM f l = Return k ↔ Forall2 (λ x y, f x = Return y) l k.
Proof.
  revert k. induction l as [|x l IH]; intros k; simpl.
  - split; [intros [= <-]; constructor|by inversion 1].
  - unfold mbind, Result_bind.
    destruct (f x) as [y|e] eqn:Hx.
    + destruct (mapM f l) as [k'|e] eqn:Hl.
      * split.
        -- intros [= <-]. constructor; [done|]. by apply IH.
        -- inversion 1 as [|? y' ? k'' Hy Hk]; subst.
           apply IH in Hk. unfold mret, Result_ret. congruence.
      * split; [done|]. inversion 1 as [|? y' ? k'' Hy Hk]; subst.
        apply IH in Hk. congruence.
    + split; [done|]. inversion 1; congruence.
Qed.
(** A throw of the mapping is the throw of the function on one of the rows. *)
Lemma mapM_Throw {A B} (f : A → Result B) (l : list A) msg :
  mapM f l = Throw msg → ∃ x, x ∈ l ∧ f x = Throw msg.
Proof.
  induction l as [|x l IH]; simpl; [done|].
  unfold mbind, Result_bind.
  destruct (f x) as [y|e] eqn:Hx.
  - destruct (mapM f l) as [k'|e] eqn:Hl; [done|].
    intros [= ->]. destruct (IH eq_refl) as (x' & Hin & Hf).
    exists x'. split; [by right|done].
  - intros [= ->]. exists x. split; [by left|done].
Qed.

(** The mapping throws when the function throws on one of the rows. *)
Lemma mapM_throws {A B} (f : A → Result B) (l : list A) x :
  x ∈ l → (∃ msg, f x = Throw msg) → ∃ msg, mapM f l = Throw msg.
Proof.
  intros Hin [msg Hx].
  destruct (mapM f l) as [k|e] eqn:Hl; [|by eexists].
  apply mapM_Return in Hl.
  apply list_elem_of_lookup in Hin as [i Hi].
  destruct (Forall2_lookup_l _ _ _ _ _ Hl Hi) as (y & _ & Hy). congruence.
Qed.

Lemma mapM_returns {A B} (f : A → Result B) (l : list A) :
  Forall (λ x, ∃ y, f x = Return y) l → ∃ k, mapM f l = Return k.
Proof.
  induction 1 as [|x l [y Hy] _ [k Hk]]; [by eexists|].
  exists (y :: k). apply mapM_Return. constructor; [done|]. by apply mapM_Return.
Qed.

End Traversal.

(** ** The id 0 *)

Module IdZero.
Import Constants Utils Queries Routes Vocabulary Requests.

Lemma timeseries_statement_user_zero g sd ed gid :
  getTimeSeries_statement g sd ed (Some (Finite 0)) gid
  = getTimeSeries_statement g sd ed None gid.
Proof. reflexivity. Qed.

Lemma timeseries_statement_group_zero g sd ed uid :
  getTimeSeries_statement g sd ed uid (Some (Finite 0))
  = getTimeSeries_statement g sd ed uid None.
Proof. reflexivity. Qed.

Lemma users_statement_user_zero sd ed limit offset :
  getUserPerformance_statement sd ed (Some (Finite 0)) limit offset
  = getUserPerformance_statement sd ed None limit offset.
Proof. reflexivity. Qed.

Lemma groups_statement_group_zero sd ed :
  getGroupPerformance_statement sd ed (Some (Finite 0))
  = getGroupPerformance_statement sd ed None.
Proof. reflexivity. Qed.

Section WithDatabase.
Context {RT : Runtime} {DB : Database}.

Lemma timeseries_user_zero req :
  timeseries (with_param "user_id" "0" req) = timeseries (without_param "user_id" req).
Proof. unfold timeseries. params. reflexivity. Qed.

Lemma timeseries_group_zero req :
  timeseries (with_param "group_id" "0" req) = timeseries (without_param "group_id" req).
Proof. unfold timeseries. params. reflexivity. Qed.

Lemma users_user_zero req :
  users (with_param "user_id" "0" req) = users (without_param "user_id" req).
Proof. unfold users. params. reflexivity. Qed.

Lemma groups_group_zero req :
  groups (with_param "group_id" "0" req) = groups (without_param "group_id" req).
Proof. unfold groups. params. reflexivity. Qed.

(** C9.  The id 0 parses to the number 0, which fails the builders' test:
    the statement (text and parameters) is the one built without the
    filter, and so is the whole response of every endpoint that takes the
    id. *)
Theorem id_zero_is_no_filter :
  parseIntParam (Str "0") = Some (Finite 0)
  ∧ (∀ g sd ed gid,
       getTimeSeries_statement g sd ed (Some (Finite 0)) gid
       = getTimeSeries_statement g sd ed None gid)
  ∧ (∀ g sd ed uid,
       getTimeSeries_statement g sd ed uid (Some (Finite 0))
       = getTimeSeries_statement g sd ed uid None)
  ∧ (∀ sd ed limit offset,
       getUserPerformance_statement sd ed (Some (Finite 0)) limit offset
       = getUserPerformance_statement sd ed None limit offset)
  ∧ (∀ sd ed,
       getGroupPerformance_statement sd ed (Some (Finite 0))
       = getGroupPerformance_statement sd ed None)
  ∧ (∀ req, timeseries (with_param "user_id" "0" req)
            = timeseries (without_param "user_id" req))
  ∧ (∀ req, timeseries (with_param "group_id" "0" req)
            = timeseries (without_param "group_id" req))
  ∧ (∀ req, users (with_param "user_id" "0" req)
            = users (without_param "user_id" req))
  ∧ (∀ req, groups (with_param "group_id" "0" req)
            = groups (without_param "group_id" req)).
Proof.
  repeat split;
    auto using timeseries_statement_user_zero, timeseries_statement_group_zero,
      users_statement_user_zero, groups_statement_group_zero,
      timeseries_user_zero, timeseries_group_zero, users_user_zero, groups_group_zero.
Qed.

End WithDatabase.
End IdZero.

(** ** Validation in the handlers *)

Module Validation.
Import Constants Utils Queries Routes Vocabulary Requests.

(** The expectations of [utils.test.ts] on the three parsers. *)
Lemma utils_tested :
  (isValidGranularity (Str "day") = true ∧ isValidGranularity (Str "week") = true
   ∧ isValidGranularity (Str "month") = true
   ∧ isValidGranularity (Str "quarter") = true
   ∧ isValidGranularity (Str "year") = true
   ∧ isValidGranularity (Str "invalid") = false
   ∧ isValidGranularity (Str "hourly") = false
   ∧ isValidGranularity (Str "") = false ∧ isValidGranularity Other = false
   ∧ isValidGranularity Undefined = false)
  ∧ (parseStringParam (Str "test") = Some "test"
     ∧ parseStringParam (Str "hello world") = Some "hello world"
     ∧ parseStringParam (Str "") = None ∧ parseStringParam Other = None
     ∧ parseStringParam Undefined = None)
  ∧ (parseIntParam (Str "10") = Some (Finite 10)
     ∧ parseIntParam (Str "0") = Some (Finite 0)
     ∧ parseIntParam (Str "-5") = Some (Finite (-5))
     ∧ parseIntParam (Str "100") = Some (Finite 100)
     ∧ parseIntParam (Str "abc") = None ∧ parseIntParam (Str "") = None
     ∧ parseIntParam Other = None
     ∧ parseIntParam (Str "10.5") = Some (Finite 10)
     ∧ parseIntParam (Str "3.9") = Some (Finite 3))
  ∧ (parseNumericString "100" = Finite 100 ∧ parseNumericString "0" = Finite 0
     ∧ parseNumericString "999999" = Finite 999999).
Proof. repeat split; reflexivity. Qed.

Lemma parseStringParam_Str s : s ≠ "" → parseStringParam (Str s) = Some s.
Proof. destruct s; [done|]. reflexivity. Qed.

(** [parseStringParam] returns no falsy string. *)
Lemma parseStringParam_truthy v s : parseStringParam v = Some s → JS.truthy_string s = true.
Proof. destruct v as [|[|c s']|]; simpl; try discriminate. by intros [= <-]. Qed.

Lemma or_else_parsed v fallback :
  or_else (parseStringParam v) fallback = default fallback (parseStringParam v).
Proof.
  unfold or_else. destruct (parseStringParam v) eqn:E; [|done].
  by rewrite (parseStringParam_truthy _ _ E).
Qed.

Lemma parseIntParam_not_NaN v l : parseIntParam v = Some l → l ≠ NaN.
Proof.
  destruct v as [|s|]; simpl; try discriminate.
  destruct (JS.parseInt s); simpl; congruence.
Qed.

Lemma isValidGranularity_exactly v :
  isValidGranularity v = true
  ↔ v = Str "day" ∨ v = Str "week" ∨ v = Str "month" ∨ v = Str "quarter"
    ∨ v = Str "year".
Proof.
  destruct v as [|s|]; simpl; [intuition congruence| |intuition congruence].
  rewrite bool_decide_eq_true. unfold VALID_GRANULARITIES.
  rewrite !elem_of_cons, elem_of_nil. intuition congruence.
Qed.

(** The limit check on a parsed number. *)
Lemma out_of_range_exactly l :
  l ≠ NaN → (out_of_range l = false ↔ in_limit_range l).
Proof.
  unfold in_limit_range, out_of_range, JS.gt, PAGINATION.MIN_LIMIT, PAGINATION.MAX_LIMIT.
  destruct l as [z| | |]; simpl; intros Hn; try done.
  - rewrite orb_false_iff, !Z.ltb_ge. split; [eauto|]. by intros (? & [= <-] & ?).
  - split; [done|]. by intros (? & ? & _).
  - split; [done|]. by intros (? & ? & _).
Qed.

(** The offset check on a parsed number. *)
Lemma negative_exactly o : JS.lt o (Finite 0) = true ↔ negative o.
Proof.
  unfold negative. destruct o as [z| | |]; simpl.
  - rewrite Z.ltb_lt. split; [eauto|]. by intros [|(? & [= <-] & ?)].
  - split; [done|]. by intros [|(? & ? & _)].
  - split; [eauto|done].
  - split; [done|]. by intros [|(? & ? & _)].
Qed.

Section WithDatabase.
Context {RT : Runtime} {DB : Database}.

Lemma date_checks req :
  date_checks_pass req = true →
  present_and_invalid (parseStringParam (param req "start_date")) = false
  ∧ present_and_invalid (parseStringParam (param req "end_date")) = false
  ∧ out_of_order (parseStringParam (param req "start_date"))
      (parseStringParam (param req "end_date")) = false.
Proof.
  unfold date_checks_pass. cbv zeta.
  rewrite !andb_true_iff, !negb_true_iff. tauto.
Qed.

Lemma timeseries_default_granularity req :
  parseStringParam (param req "granularity") = None →
  timeseries req = timeseries (with_param "granularity" "month" req).
Proof. intros Hg. unfold timeseries. params. rewrite Hg. reflexivity. Qed.

Lemma timeseries_rejects_granularity req s :
  param req "granularity" = Str s → s ≠ "" → s ∉ VALID_GRANULARITIES →
  timeseries req
  = sendError HTTP_STATUS.BAD_REQUEST ERROR_CODES.INVALID_GRANULARITY
      "Invalid granularity. Must be one of: day, week, month, quarter, year".
Proof.
  intros Hp Hs Hv. unfold timeseries. rewrite Hp, (parseStringParam_Str _ Hs).
  cbn [as_unknown isValidGranularity]. rewrite (bool_decide_eq_false_2 _ Hv).
  reflexivity.
Qed.

(** Once the dates pass the checks, the handler answers with the series
    [getTimeSeries] computes at the granularity [g], where [g] is [month]
    for an absent parameter and the parameter itself when it is one of the
    five words. *)
Lemma timeseries_answers_at_granularity req g :
  (parseStringParam (param req "granularity") = None ∧ g = "month")
  ∨ (param req "granularity" = Str g ∧ g ∈ VALID_GRANULARITIES) →
  date_checks_pass req = true →
  match getTimeSeries g
          (parseStringParam (param req "start_date"))
          (parseStringParam (param req "end_date"))
          (parseIntParam (param req "user_id"))
          (parseIntParam (param req "group_id")) with
  | Return points =>
      ∃ body, timeseries req = Json HTTP_STATUS.OK body ∧ data body = points
  | Throw _ =>
      timeseries req
      = sendError HTTP_STATUS.INTERNAL_ERROR ERROR_CODES.INTERNAL_ERROR
          "Failed to fetch time series data"
  end.
Proof.
  intros Hg (Hs & He & Ho)%date_checks. unfold timeseries. cbv zeta.
  rewrite Hs, He, Ho.
  destruct Hg as [[-> ->]|[-> Hg]].
  - cbn [negb andb as_unknown isValidGranularity].
    rewrite bool_decide_eq_false_2 by (by intros []).
    cbn [andb]. destruct (getTimeSeries _ _ _ _ _); [|reflexivity].
    eexists. split; reflexivity.
  - assert (g ≠ "") as Hne by (intros ->; set_unfold; intuition discriminate).
    rewrite (parseStringParam_Str _ Hne).
    cbn [as_unknown isValidGranularity]. rewrite (bool_decide_eq_true_2 _ Hg).
    rewrite andb_false_r.
    destruct (getTimeSeries _ _ _ _ _); [|reflexivity].
    eexists. split; reflexivity.
Qed.

(** C6.  [isValidGranularity] holds of the five words and of nothing else
    (so of no other spelling of them); the time-series handler takes an
    absent granularity as [month]: the request is answered as the one with
    the granularity [month] is, and, the dates passing their checks, with
    the series [getTimeSeries] computes for [month]; a supplied word of the
    five is passed on as it is; any other non-empty string is answered with
    400 INVALID_GRANULARITY. *)
Theorem granularity_validation :
  (∀ v, isValidGranularity v = true
        ↔ v = Str "day" ∨ v = Str "week" ∨ v = Str "month" ∨ v = Str "quarter"
          ∨ v = Str "year")
  ∧ (isValidGranularity (Str "Day") = false
     ∧ isValidGranularity (Str "MONTH") = false
     ∧ isValidGranularity (Str "") = false)
  ∧ (∀ req, query req !! "granularity" = None →
            timeseries req = timeseries (with_param "granularity" "month" req))
  ∧ (∀ req s, param req "granularity" = Str s → s ≠ "" →
              s ∉ VALID_GRANULARITIES →
              timeseries req
              = sendError HTTP_STATUS.BAD_REQUEST ERROR_CODES.INVALID_GRANULARITY
                  "Invalid granularity. Must be one of: day, week, month, quarter, year")
  ∧ (∀ req, query req !! "granularity" = None → date_checks_pass req = true →
            match getTimeSeries "month"
                    (parseStringParam (param req "start_date"))
                    (parseStringParam (param req "end_date"))
                    (parseIntParam (param req "user_id"))
                    (parseIntParam (param req "group_id")) with
            | Return points =>
                ∃ body, timeseries req = Json HTTP_STATUS.OK body ∧ data body = points
            | Throw _ =>
                timeseries req
                = sendError HTTP_STATUS.INTERNAL_ERROR ERROR_CODES.INTERNAL_ERROR
                    "Failed to fetch time series data"
            end)
  ∧ (∀ req g, param req "granularity" = Str g → g ∈ VALID_GRANULARITIES →
              date_checks_pass req = true →
              match getTimeSeries g
                      (parseStringParam (param req "start_date"))
                      (parseStringParam (param req "end_date"))
                      (parseIntParam (param req "user_id"))
                      (parseIntParam (param req "group_id")) with
              | Return points =>
                  ∃ body, timeseries req = Json HTTP_STATUS.OK body ∧ data body = points
              | Throw _ =>
                  timeseries req
                  = sendError HTTP_STATUS.INTERNAL_ERROR ERROR_CODES.INTERNAL_ERROR
                      "Failed to fetch time series data"
              end).
Proof.
  split; [apply isValidGranularity_exactly|]. split; [by repeat split|].
  split; [|split; [|split]].
  - intros req Ha. apply timeseries_default_granularity. by rewrite (param_absent _ _ Ha).
  - apply timeseries_rejects_granularity.
  - intros req Ha Hd. apply timeseries_answers_at_granularity; [|exact Hd].
    left. by rewrite (param_absent _ _ Ha).
  - intros req g Hp Hg Hd. apply timeseries_answers_at_granularity; [|exact Hd].
    right. by split.
Qed.

Lemma compare_requires_all req :
  parseStringParam (param req "current_start") = None
  ∨ parseStringParam (param req "current_end") = None
  ∨ parseStringParam (param req "previous_start") = None
  ∨ parseStringParam (param req "previous_end") = None →
  compare req
  = sendError HTTP_STATUS.BAD_REQUEST ERROR_CODES.MISSING_PARAMS
      "All date parameters are required: current_start, current_end, previous_start, previous_end".
Proof.
  intros Hm. unfold compare.
  destruct (parseStringParam (param req "current_start")),
    (parseStringParam (param req "current_end")),
    (parseStringParam (param req "previous_start")),
    (parseStringParam (param req "previous_end")); try reflexivity.
  intuition discriminate.
Qed.

(** C5.  When one of the four bounds of [compare] is absent the response is
    400 MISSING_PARAMS, whatever the other bounds are: no date is looked at
    before. *)
Theorem compare_missing_params req :
  query req !! "current_start" = None ∨ query req !! "current_end" = None
  ∨ query req !! "previous_start" = None ∨ query req !! "previous_end" = None →
  compare req
  = sendError HTTP_STATUS.BAD_REQUEST ERROR_CODES.MISSING_PARAMS
      "All date parameters are required: current_start, current_end, previous_start, previous_end".
Proof.
  intros Ha. apply compare_requires_all.
  destruct Ha as [Ha|[Ha|[Ha|Ha]]]; rewrite (param_absent _ _ Ha); auto.
Qed.

Lemma limit_check req l :
  parseIntParam (param req "limit") = Some l →
  out_of_range l = false ↔ in_limit_range l.
Proof. intros Hl. apply out_of_range_exactly. eapply parseIntParam_not_NaN, Hl. Qed.

Lemma users_rejects_limit req l :
  date_checks_pass req = true → parseIntParam (param req "limit") = Some l →
  ¬ in_limit_range l →
  users req
  = sendError HTTP_STATUS.BAD_REQUEST ERROR_CODES.INVALID_LIMIT
      ERROR_MESSAGES.INVALID_LIMIT.
Proof.
  intros (Hs & He & Ho)%date_checks Hl Hr. unfold users. cbv zeta.
  rewrite Hs, He, Ho, Hl.
  destruct (out_of_range l) eqn:E; [reflexivity|].
  by apply (limit_check _ _ Hl) in E.
Qed.

Lemma users_rejects_offset req o :
  date_checks_pass req = true →
  from_option in_limit_range True (parseIntParam (param req "limit")) →
  parseIntParam (param req "offset") = Some o → negative o →
  users req
  = sendError HTTP_STATUS.BAD_REQUEST ERROR_CODES.INVALID_OFFSET
      ERROR_MESSAGES.INVALID_OFFSET.
Proof.
  intros (Hs & He & Ho)%date_checks Hl Hoff Hn. unfold users. cbv zeta.
  rewrite Hs, He, Ho, Hoff.
  destruct (parseIntParam (param req "limit")) as [l|] eqn:El; simpl in Hl.
  - apply (limit_check _ _ El) in Hl. rewrite Hl.
    by apply negative_exactly in Hn as ->.
  - by apply negative_exactly in Hn as ->.
Qed.

Lemma users_accepts req :
  date_checks_pass req = true →
  from_option in_limit_range True (parseIntParam (param req "limit")) →
  from_option (λ o, ¬ negative o) True (parseIntParam (param req "offset")) →
  status_of (users req) ≠ HTTP_STATUS.BAD_REQUEST.
Proof.
  intros (Hs & He & Ho)%date_checks Hl Hoff. unfold users. cbv zeta.
  rewrite Hs, He, Ho.
  assert (match parseIntParam (param req "limit") with
          | Some l => out_of_range l | None => false end = false) as ->.
  { destruct (parseIntParam (param req "limit")) as [l|] eqn:El; [|done].
    by apply (limit_check _ _ El). }
  assert (match parseIntParam (param req "offset") with
          | Some o => JS.lt o (Finite 0) | None => false end = false) as ->.
  { destruct (parseIntParam (param req "offset")) as [o|]; [|done]. simpl in Hoff.
    destruct (JS.lt o (Finite 0)) eqn:E; [|done]. by apply negative_exactly in E. }
  by destruct (getUserPerformance _ _ _ _ _).
Qed.

Lemma leaderboard_default_limit req :
  parseIntParam (param req "limit") = None →
  leaderboard req = leaderboard (with_param "limit" "10" req).
Proof. intros Hl. unfold leaderboard. params. rewrite Hl. reflexivity. Qed.

Lemma leaderboard_rejects_limit req l :
  date_checks_pass req = true → parseIntParam (param req "limit") = Some l →
  ¬ in_limit_range l →
  leaderboard req
  = sendError HTTP_STATUS.BAD_REQUEST ERROR_CODES.INVALID_LIMIT
      ERROR_MESSAGES.INVALID_LIMIT.
Proof.
  intros (Hs & He & Ho)%date_checks Hl Hr. unfold leaderboard. cbv zeta.
  rewrite Hs, He, Ho, Hl. simpl.
  destruct (out_of_range l) eqn:E; [reflexivity|].
  by apply (limit_check _ _ Hl) in E.
Qed.

Lemma leaderboard_accepts_limit req l :
  date_checks_pass req = true → parseIntParam (param req "limit") = Some l →
  in_limit_range l →
  status_of (leaderboard req) ≠ HTTP_STATUS.BAD_REQUEST.
Proof.
  intros (Hs & He & Ho)%date_checks Hl Hr. unfold leaderboard. cbv zeta.
  rewrite Hs, He, Ho, Hl. simpl.
  apply (limit_check _ _ Hl) in Hr as ->.
  by destruct (getLeaderboard _ _ _).
Qed.

(** Without a limit, and the dates passing their checks, the leaderboard
    answers with the entries [getLeaderboard] computes for the limit 10. *)
Lemma leaderboard_answers_at_limit_10 req :
  parseIntParam (param req "limit") = None → date_checks_pass req = true →
  match getLeaderboard
          (parseStringParam (param req "start_date"))
          (parseStringParam (param req "end_date"))
          (Some (Finite 10)) with
  | Return entries =>
      ∃ body, leaderboard req = Json HTTP_STATUS.OK body ∧ data body = entries
  | Throw _ =>
      leaderboard req
      = sendError HTTP_STATUS.INTERNAL_ERROR ERROR_CODES.INTERNAL_ERROR
          "Failed to fetch leaderboard data"
  end.
Proof.
  intros Hl (Hs & He & Ho)%date_checks. unfold leaderboard. cbv zeta.
  rewrite Hs, He, Ho, Hl. cbn [default from_option].
  change (out_of_range PAGINATION.DEFAULT_LIMIT) with false. cbv iota.
  change PAGINATION.DEFAULT_LIMIT with (Finite 10).
  destruct (getLeaderboard _ _ _); [|reflexivity].
  eexists. split; reflexivity.
Qed.

(** The limit 10 is the last parameter of the statement, the one LIMIT
    refers to. *)
Lemma leaderboard_binds_limit_10 sd ed :
  (getLeaderboard_statement sd ed (Some (Finite 10))).2
  = supplied_string sd ++ supplied_string ed ++ [PNum (Finite 10)]
  ∧ getLeaderboard_statement sd ed None
    = getLeaderboard_statement sd ed (Some (Finite 10)).
Proof. split; [by destruct sd as [[|? ?]|], ed as [[|? ?]|]|reflexivity]. Qed.

(** C7.  Once the date checks pass, a limit that parses to a number is
    accepted exactly when it lies in [1, 100] and otherwise answered with
    400 INVALID_LIMIT; then a negative offset is answered with 400
    INVALID_OFFSET; with both in range the request is not a bad request.
    The leaderboard without a limit is the leaderboard with limit 10: it
    answers with the entries [getLeaderboard] computes for the limit 10,
    and 10 is the parameter bound to LIMIT. *)
Theorem pagination_validation :
  (∀ req l, date_checks_pass req = true →
            parseIntParam (param req "limit") = Some l → ¬ in_limit_range l →
            users req
            = sendError HTTP_STATUS.BAD_REQUEST ERROR_CODES.INVALID_LIMIT
                ERROR_MESSAGES.INVALID_LIMIT)
  ∧ (∀ req o, date_checks_pass req = true →
              from_option in_limit_range True (parseIntParam (param req "limit")) →
              parseIntParam (param req "offset") = Some o → negative o →
              users req
              = sendError HTTP_STATUS.BAD_REQUEST ERROR_CODES.INVALID_OFFSET
                  ERROR_MESSAGES.INVALID_OFFSET)
  ∧ (∀ req, date_checks_pass req = true →
            from_option in_limit_range True (parseIntParam (param req "limit")) →
            from_option (λ o, ¬ negative o) True
              (parseIntParam (param req "offset")) →
            status_of (users req) ≠ HTTP_STATUS.BAD_REQUEST)
  ∧ (∀ req, parseIntParam (param req "limit") = None →
            leaderboard req = leaderboard (with_param "limit" "10" req))
  ∧ (∀ req, parseIntParam (param req "limit") = None →
            date_checks_pass req = true →
            match getLeaderboard
                    (parseStringParam (param req "start_date"))
                    (parseStringParam (param req "end_date"))
                    (Some (Finite 10)) with
            | Return entries =>
                ∃ body, leaderboard req = Json HTTP_STATUS.OK body
                        ∧ data body = entries
            | Throw _ =>
                leaderboard req
                = sendError HTTP_STATUS.INTERNAL_ERROR ERROR_CODES.INTERNAL_ERROR
                    "Failed to fetch leaderboard data"
            end)
  ∧ (∀ sd ed,
       (getLeaderboard_statement sd ed (Some (Finite 10))).2
       = supplied_string sd ++ supplied_string ed ++ [PNum (Finite 10)]
       ∧ getLeaderboard_statement sd ed None
         = getLeaderboard_statement sd ed (Some (Finite 10)))
  ∧ (∀ req l, date_checks_pass req = true →
              parseIntParam (param req "limit") = Some l → ¬ in_limit_range l →
              leaderboard req
              = sendError HTTP_STATUS.BAD_REQUEST ERROR_CODES.INVALID_LIMIT
                  ERROR_MESSAGES.INVALID_LIMIT)
  ∧ (∀ req l, date_checks_pass req = true →
              parseIntParam (param req "limit") = Some l → in_limit_range l →
              status_of (leaderboard req) ≠ HTTP_STATUS.BAD_REQUEST)
  ∧ (in_limit_range (Finite 1) ∧ in_limit_range (Finite 100)
     ∧ ¬ in_limit_range (Finite 0) ∧ ¬ in_limit_range (Finite 101)
     ∧ ¬ negative (Finite 0) ∧ negative (Finite (-1))).
Proof.
  repeat apply conj;
    try first [ exact users_rejects_limit | exact users_rejects_offset
              | exact users_accepts | exact leaderboard_default_limit
              | exact leaderboard_answers_at_limit_10
              | exact leaderboard_binds_limit_10
              | exact leaderboard_rejects_limit | exact leaderboard_accepts_limit ].
  all: unfold in_limit_range, negative.
  - exists 1. split; [done|lia].
  - exists 100. split; [done|lia].
  - intros (z & [= <-] & ?). lia.
  - intros (z & [= <-] & ?). lia.
  - intros [|(z & [= <-] & ?)]; [done|lia].
  - right. exists (-1). split; [done|lia].
Qed.

(** C8.  A successful time-series response has status 200, [meta.total] the
    number of buckets, and as [meta.period] the supplied bounds, else the
    periods of the first and last bucket, else empty strings. *)
Theorem timeseries_meta req status body :
  timeseries req = Json status body →
  status = HTTP_STATUS.OK
  ∧ meta body = Some
      {| meta_total := Some (Finite (Z.of_nat (length (data body))));
         meta_limit := None;
         meta_offset := None;
         meta_period := Some
           {| period_start :=
                match parseStringParam (param req "start_date") with
                | Some start_date => start_date
                | None =>
                    match data body with
                    | first :: _ => TimeSeriesDataPoint.period first
                    | [] => ""
                    end
                end;
              period_end :=
                match parseStringParam (param req "end_date") with
                | Some end_date => end_date
                | None =>
                    match last (data body) with
                    | Some final => TimeSeriesDataPoint.period final
                    | None => ""
                    end
                end |} |}.
Proof.
  unfold timeseries. cbv zeta.
  repeat match goal with
         | |- context [if ?b then sendError _ _ _ else _] => destruct b; [discriminate|]
         end.
  destruct (getTimeSeries _ _ _ _ _) as [rows|]; [|discriminate].
  intros [= <- <-]. split; [reflexivity|]. simpl.
  rewrite !or_else_parsed.
  destruct (parseStringParam (param req "start_date")),
    (parseStringParam (param req "end_date")), rows; reflexivity.
Qed.

End WithDatabase.
End Validation.

(** ** Integers in query parameters *)

Module IntegerParsing.
Import Constants Utils Queries Routes Vocabulary Requests.

Lemma to_number_exact z : Z.abs z <= 2 ^ 53 → JS.to_number z = Finite z.
Proof.
  intros Hz. unfold JS.to_number, JS.round_to_double.
  assert (2 ^ 53 < 2 ^ 1024) as Hlt by reflexivity.
  change (2 ^ 53) with 9007199254740992 in *.
  destruct (Z.ltb_spec (Z.abs z) 9007199254740992) as [Hs|Hs].
  - destruct (Z.leb_spec (2 ^ 1024) (Z.abs z)); [lia|]. f_equal. lia.
  - assert (z = 9007199254740992 ∨ z = -9007199254740992) as [-> | ->] by lia;
      reflexivity.
Qed.

Lemma to_number_is_a_number z : JS.isNaN (JS.to_number z) = false.
Proof. unfold JS.to_number. by repeat case_match. Qed.

(** A digit is neither white space nor a sign. *)
Lemma digit_is_no_prefix c :
  JS.is_digit c = true →
  JS.is_white c = false ∧ Ascii.eqb c "-" = false ∧ Ascii.eqb c "+" = false.
Proof.
  destruct c as [[] [] [] [] [] [] [] []]; vm_compute; intros Hd;
    first [ discriminate Hd | repeat split ].
Qed.

Lemma parseInt_integer_prefix s z :
  integer_prefix s = Some z → JS.parseInt s = JS.to_number z.
Proof.
  destruct s as [|c r]; [discriminate|].
  unfold integer_prefix, JS.parseInt.
  destruct (Ascii.eqb c "-") eqn:Hminus.
  - apply Ascii.eqb_eq in Hminus as ->.
    change (JS.skip_white (String "-" r)) with (String "-"%char r).
    cbv beta iota. rewrite Ascii.eqb_refl. cbv beta iota zeta.
    destruct (JS.digits_prefix r); [discriminate|]. by intros [= <-].
  - cbn [JS.digits_prefix JS.skip_white].
    destruct (JS.is_digit c) eqn:Hd; [|discriminate].
    destruct (digit_is_no_prefix c Hd) as (-> & _ & Hplus).
    cbv beta iota. rewrite Hminus, Hplus.
    cbv beta iota zeta. cbn [JS.digits_prefix]. rewrite Hd. by intros [= <-].
Qed.

Section WithDatabase.
Context {RT : Runtime} {DB : Database}.

Lemma users_truncates_limit req :
  users (with_param "limit" "10.5" req) = users (with_param "limit" "10" req).
Proof. unfold users. params. reflexivity. Qed.

(** C10, as the code has it.  A parameter that begins with an integer is
    read as that integer converted to a JavaScript number: the integer
    itself up to 2^53 in magnitude, the nearest double beyond; only a
    string without such a prefix can be read as absent; and the limit 10.5
    is the limit 10. *)
Theorem parseIntParam_reads_the_integer_prefix :
  (∀ s z, integer_prefix s = Some z →
          parseIntParam (Str s) = Some (JS.to_number z))
  ∧ (∀ z, Z.abs z <= 2 ^ 53 → JS.to_number z = Finite z)
  ∧ (∀ s, parseIntParam (Str s) = None → integer_prefix s = None)
  ∧ (parseIntParam (Str "10.5") = Some (Finite 10)
     ∧ parseIntParam (Str "3.9") = Some (Finite 3)
     ∧ parseIntParam (Str "-5") = Some (Finite (-5)))
  ∧ (∀ req, users (with_param "limit" "10.5" req)
            = users (with_param "limit" "10" req)).
Proof.
  assert (∀ s z, integer_prefix s = Some z →
                 parseIntParam (Str s) = Some (JS.to_number z)) as Hprefix.
  { intros s z Hp. unfold parseIntParam.
    by rewrite (parseInt_integer_prefix _ _ Hp), to_number_is_a_number. }
  repeat apply conj; try reflexivity.
  - exact Hprefix.
  - exact to_number_exact.
  - intros s Hn. destruct (integer_prefix s) as [z|] eqn:E; [|done].
    by rewrite (Hprefix _ _ E) in Hn.
  - exact users_truncates_limit.
Qed.

End WithDatabase.

(** C10, as stated, fails: beyond 2^53 the number read is not the integer
    the string begins with. *)
Lemma parseIntParam_rounds_beyond_2_53 :
  integer_prefix "9007199254740993" = Some 9007199254740993
  ∧ parseIntParam (Str "9007199254740993") = Some (Finite 9007199254740992).
Proof. split; reflexivity. Qed.

End IntegerParsing.

(** ** The total of the user listing *)

Module Pagination.
Import Constants Utils Queries Routes Vocabulary Sample.

Section WithDatabase.
Context {RT : Runtime} {DB : Database}.

(** The total is read off the first row of the page, when no row holds a
    NULL average. *)
Lemma getUserPerformance_total sd ed uid limit offset rows :
  query_UserPerformanceRow
    (getUserPerformance_statement sd ed uid limit offset).1
    (getUserPerformance_statement sd ed uid limit offset).2 = Return rows →
  Forall (λ row, is_Some (UserPerformanceRow.average_revenue row)) rows →
  UserPerformancePage.total <$> getUserPerformance sd ed uid limit offset
  = Return (match rows with
            | first :: _ => UserPerformanceRow.total_count first
            | [] => Finite 0
            end).
Proof.
  intros Hq Hav. unfold getUserPerformance.
  destruct (getUserPerformance_statement sd ed uid limit offset) as [sql params].
  simpl in Hq. unfold mbind at 1, Result_bind at 1. rewrite Hq.
  match goal with
  | |- context [@mapM _ _ _ _ _ ?f rows] =>
      destruct (Traversal.mapM_returns f rows) as [data ->]; [|reflexivity]
  end.
  eapply Forall_impl; [exact Hav|]. intros row [a ->]. by eexists.
Qed.

(** No row PostgreSQL returns for the listing holds a NULL average: every
    group has a sale. *)
Lemma user_performance_averaged avg db sd ed uid limit offset rows :
  Postgres.user_performance avg db sd ed uid limit offset = Return rows →
  Forall (λ row, is_Some (UserPerformanceRow.average_revenue row)) rows.
Proof.
  unfold Postgres.user_performance.
  destruct (Postgres.bound_date sd) as [from|]; [|discriminate].
  destruct (Postgres.bound_date ed) as [to|]; [|discriminate].
  destruct (Postgres.bound_id uid) as [id|]; [|discriminate].
  destruct (Postgres.bound_count limit) as [lim|]; [|discriminate].
  destruct (Postgres.bound_count offset) as [off|]; [|discriminate].
  simpl. intros [= <-]. unfold Postgres.page.
  assert (Forall (λ row, is_Some (UserPerformanceRow.average_revenue row))
            (Postgres.user_row avg (length (Postgres.user_groups db from to id))
               <$> Postgres.order_desc (Postgres.user_groups db from to id))) as Hall.
  { apply Forall_fmap, Forall_forall. intros g _. by eexists. }
  destruct off as [n|], lim as [m|]; simpl;
    auto using Forall_take, Forall_drop.
Qed.

(** Every row PostgreSQL returns carries the number of groups. *)
Lemma user_performance_total_count avg db sd ed uid limit offset rows :
  Postgres.user_performance avg db sd ed uid limit offset = Return rows →
  ∃ from to id,
    Postgres.bound_date sd = Return from ∧ Postgres.bound_date ed = Return to
    ∧ Postgres.bound_id uid = Return id
    ∧ Forall (λ row, UserPerformanceRow.total_count row
                     = Finite (Z.of_nat (length (Postgres.user_groups db from to id))))
        rows.
Proof.
  unfold Postgres.user_performance.
  destruct (Postgres.bound_date sd) as [from|]; [|discriminate].
  destruct (Postgres.bound_date ed) as [to|]; [|discriminate].
  destruct (Postgres.bound_id uid) as [id|]; [|discriminate].
  destruct (Postgres.bound_count limit) as [lim|]; [|discriminate].
  destruct (Postgres.bound_count offset) as [off|]; [|discriminate].
  simpl. intros [= <-]. exists from, to, id. repeat split.
  unfold Postgres.page.
  assert (Forall (λ row, UserPerformanceRow.total_count row
                   = Finite (Z.of_nat (length (Postgres.user_groups db from to id))))
            (Postgres.user_row avg (length (Postgres.user_groups db from to id))
               <$> Postgres.order_desc (Postgres.user_groups db from to id))) as Hall.
  { apply Forall_fmap, Forall_forall. reflexivity. }
  destruct off as [n|], lim as [m|]; simpl;
    auto using Forall_take, Forall_drop.
Qed.

(** On a page with a row the total is the number of groups; on an empty
    page it is 0. *)
Lemma getUserPerformance_total_of_page avg db sd ed uid limit offset rows :
  query_UserPerformanceRow
    (getUserPerformance_statement sd ed uid limit offset).1
    (getUserPerformance_statement sd ed uid limit offset).2
  = Postgres.user_performance avg db sd ed uid limit offset →
  Postgres.user_performance avg db sd ed uid limit offset = Return rows →
  ∃ from to id,
    Postgres.bound_date sd = Return from ∧ Postgres.bound_date ed = Return to
    ∧ Postgres.bound_id uid = Return id
    ∧ UserPerformancePage.total <$> getUserPerformance sd ed uid limit offset
      = Return (match rows with
                | _ :: _ => Finite (Z.of_nat (length (Postgres.user_groups db from to id)))
                | [] => Finite 0
                end).
Proof.
  intros Hq Hrows. rewrite Hrows in Hq.
  destruct (user_performance_total_count _ _ _ _ _ _ _ _ Hrows)
    as (from & to & id & Hf & Ht & Hi & Hall).
  exists from, to, id. repeat split; try assumption.
  rewrite (getUserPerformance_total _ _ _ _ _ _ Hq
             (user_performance_averaged _ _ _ _ _ _ _ _ Hrows)).
  destruct Hall as [|row rows' Hrow _]; [reflexivity|]. by rewrite Hrow.
Qed.

(** ORDER BY total_revenue DESC keeps the groups and puts larger totals
    first. *)
Lemma insert_desc_perm g l : Postgres.insert_desc g l ≡ₚ g :: l.
Proof.
  induction l as [|h t IH]; [done|]. simpl. case_match; [done|].
  rewrite IH. apply Permutation_swap.
Qed.

Lemma order_desc_perm l : Postgres.order_desc l ≡ₚ l.
Proof.
  induction l as [|g l IH]; [done|]. unfold Postgres.order_desc in *. simpl.
  by rewrite insert_desc_perm, IH.
Qed.

Lemma insert_desc_sorted g l :
  Sorted larger_first l → Sorted larger_first (Postgres.insert_desc g l).
Proof.
  induction 1 as [|h t Ht IH Hh]; simpl; [by repeat constructor|].
  destruct (Z.ltb_spec (Postgres.sum (Postgres.group_amounts h))
              (Postgres.sum (Postgres.group_amounts g))) as [Hlt|Hge].
  - constructor; [by constructor|]. constructor. unfold larger_first. lia.
  - constructor; [assumption|].
    destruct t as [|h' t']; simpl.
    + by constructor.
    + inversion Hh; subst. case_match; by constructor.
Qed.

Lemma order_desc_sorted l : Sorted larger_first (Postgres.order_desc l).
Proof.
  induction l as [|g l IH]; [constructor|]. by apply insert_desc_sorted.
Qed.

(** C3.  Over a table with one seller, the first page of the listing
    reports the total 1 and the page after the end reports the total 0: the
    total is read off the first returned row and an empty page has none. *)
Theorem total_is_zero_past_the_end (avg : Z → Z → string) :
  (∀ limit offset,
     query_UserPerformanceRow
       (getUserPerformance_statement None None None (Some limit) (Some offset)).1
       (getUserPerformance_statement None None None (Some limit) (Some offset)).2
     = Postgres.user_performance avg one_seller None None None
         (Some limit) (Some offset)) →
  length (Postgres.user_groups one_seller None None None) = 1%nat
  ∧ UserPerformancePage.total
      <$> getUserPerformance None None None (Some (Finite 10)) (Some (Finite 0))
    = Return (Finite 1)
  ∧ UserPerformancePage.total
      <$> getUserPerformance None None None (Some (Finite 10)) (Some (Finite 1))
    = Return (Finite 0)
  ∧ users (request [("limit", "10"); ("offset", "1")])
    = json {| success := true;
              data := [];
              meta := Some {| meta_total := Some (Finite 0);
                              meta_limit := Some (Finite 10);
                              meta_offset := Some (Finite 1);
                              meta_period := None |} |}.
Proof.
  intros Hdb. split; [reflexivity|].
  pose proof (Hdb (Finite 10) (Finite 0)) as H0.
  pose proof (Hdb (Finite 10) (Finite 1)) as H1.
  split; [|split].
  - rewrite (getUserPerformance_total _ _ _ _ _ _ H0); [reflexivity|].
    apply (user_performance_averaged avg one_seller None None None
             (Some (Finite 10)) (Some (Finite 0))).
    reflexivity.
  - rewrite (getUserPerformance_total _ _ _ _ _ _ H1); [reflexivity|].
    apply (user_performance_averaged avg one_seller None None None
             (Some (Finite 10)) (Some (Finite 1))).
    reflexivity.
  - unfold users. cbv zeta.
    change (parseStringParam (param (request [("limit", "10"); ("offset", "1")]) "start_date"))
      with (@None string).
    change (parseStringParam (param (request [("limit", "10"); ("offset", "1")]) "end_date"))
      with (@None string).
    change (parseIntParam (param (request [("limit", "10"); ("offset", "1")]) "user_id"))
      with (@None number).
    change (parseIntParam (param (request [("limit", "10"); ("offset", "1")]) "limit"))
      with (Some (Finite 10)).
    change (parseIntParam (param (request [("limit", "10"); ("offset", "1")]) "offset"))
      with (Some (Finite 1)).
    cbn [present_and_invalid out_of_order].
    change (out_of_range (Finite 10)) with false.
    change (JS.lt (Finite 1) (Finite 0)) with false. cbv iota.
    unfold getUserPerformance.
    change (getUserPerformance_statement None None None (Some (Finite 10)) (Some (Finite 1)))
      with ((getUserPerformance_statement None None None (Some (Finite 10)) (Some (Finite 1))).1,
            (getUserPerformance_statement None None None (Some (Finite 10)) (Some (Finite 1))).2).
    cbv iota beta. unfold mbind, Result_bind. rewrite H1. reflexivity.
Qed.

End WithDatabase.
End Pagination.

(** ** Periods without sales *)

Module Comparison.
Import Constants Utils Queries Routes Vocabulary Sample.






Section WithDatabase.
Context {RT : Runtime} {DB : Database}.


End WithDatabase.
End Comparison.

(** ** The theorems at concrete requests *)

Module Witnesses.
Import Constants Utils Queries Routes Vocabulary Sample.

(** C3 on the sample data base. *)
Lemma total_is_zero_past_the_end_witness :
  length (Postgres.user_groups one_seller None None None) = 1%nat
  ∧ UserPerformancePage.total
      <$> getUserPerformance (RT := whole_numbers) (DB := sample_database) None None None
            (Some (Finite 10)) (Some (Finite 0))
    = Return (Finite 1)
  ∧ UserPerformancePage.total
      <$> getUserPerformance (RT := whole_numbers) (DB := sample_database) None None None
            (Some (Finite 10)) (Some (Finite 1))
    = Return (Finite 0)
  ∧ users (RT := whole_numbers) (DB := sample_database) (request [("limit", "10"); ("offset", "1")])
    = json {| success := true;
              data := [];
              meta := Some {| meta_total := Some (Finite 0);
                              meta_limit := Some (Finite 10);
                              meta_offset := Some (Finite 1);
                              meta_period := None |} |}.
Proof.
  apply (Pagination.total_is_zero_past_the_end (RT := whole_numbers) (DB := sample_database) avg_text).
  intros limit offset. reflexivity.
Defined.


(** C5: [previous_end] is absent and [current_start] is no date. *)
Lemma compare_missing_params_witness :
  compare (RT := whole_numbers) (DB := sample_database)
    (request [("current_start", "07/01/2021"); ("current_end", "2021-12-31");
              ("previous_start", "2021-01-01")])
  = sendError HTTP_STATUS.BAD_REQUEST ERROR_CODES.MISSING_PARAMS
      "All date parameters are required: current_start, current_end, previous_start, previous_end".
Proof.
  apply (Validation.compare_missing_params (RT := whole_numbers) (DB := sample_database)).
  right; right; right. reflexivity.
Defined.

(** C6: [hourly] is rejected, no granularity is [month]. *)
Lemma granularity_validation_witness :
  timeseries (RT := whole_numbers) (DB := sample_database) (request [("granularity", "hourly")])
  = sendError HTTP_STATUS.BAD_REQUEST ERROR_CODES.INVALID_GRANULARITY
      "Invalid granularity. Must be one of: day, week, month, quarter, year"
  ∧ timeseries (RT := whole_numbers) (DB := sample_database) (request [])
    = timeseries (RT := whole_numbers) (DB := sample_database) (with_param "granularity" "month" (request [])).
Proof.
  destruct (Validation.granularity_validation (RT := whole_numbers) (DB := sample_database))
    as (_ & _ & Hdefault & Hreject & _).
  split.
  - apply (Hreject _ "hourly"); [reflexivity|discriminate|].
    apply (bool_decide_eq_false_1 ("hourly" ∈ VALID_GRANULARITIES)). reflexivity.
  - apply Hdefault. reflexivity.
Defined.

(** C7: the limits 0 and 101, the offset -1, and the default limit. *)
Lemma pagination_validation_witness :
  users (RT := whole_numbers) (DB := sample_database) (request [("limit", "0")])
  = sendError HTTP_STATUS.BAD_REQUEST ERROR_CODES.INVALID_LIMIT
      ERROR_MESSAGES.INVALID_LIMIT
  ∧ users (RT := whole_numbers) (DB := sample_database) (request [("limit", "101")])
    = sendError HTTP_STATUS.BAD_REQUEST ERROR_CODES.INVALID_LIMIT
        ERROR_MESSAGES.INVALID_LIMIT
  ∧ users (RT := whole_numbers) (DB := sample_database) (request [("offset", "-1")])
    = sendError HTTP_STATUS.BAD_REQUEST ERROR_CODES.INVALID_OFFSET
        ERROR_MESSAGES.INVALID_OFFSET
  ∧ leaderboard (DB := sample_database) (request [])
    = leaderboard (DB := sample_database) (with_param "limit" "10" (request [])).
Proof.
  destruct (Validation.pagination_validation (RT := whole_numbers) (DB := sample_database))
    as (Hlimit & Hoffset & _ & Hdefault & _ & _ & _ & _ & _ & _ & Hzero & Hover & _
        & Hminus).
  repeat apply conj.
  - apply (Hlimit _ (Finite 0)); [reflexivity|reflexivity|exact Hzero].
  - apply (Hlimit _ (Finite 101)); [reflexivity|reflexivity|exact Hover].
  - apply (Hoffset _ (Finite (-1))); [reflexivity|exact I|reflexivity|exact Hminus].
  - apply Hdefault. reflexivity.
Defined.

(** C8: no bounds supplied, two buckets returned. *)
Lemma timeseries_meta_witness :
  HTTP_STATUS.OK = HTTP_STATUS.OK
  ∧ meta {| success := true; data := two_points; meta := Some
              {| meta_total := Some (Finite 2); meta_limit := None;
                 meta_offset := None;
                 meta_period := Some {| period_start := "2021-01-01";
                                        period_end := "2021-02-01" |} |} |}
    = Some {| meta_total := Some (Finite 2); meta_limit := None;
              meta_offset := None;
              meta_period := Some {| period_start := "2021-01-01";
                                     period_end := "2021-02-01" |} |}.
Proof.
  apply (Validation.timeseries_meta (RT := whole_numbers) (DB := sample_database) (request [])).
  reflexivity.
Defined.

(** C10: a parameter with trailing text. *)
Lemma parseIntParam_reads_the_integer_prefix_witness :
  parseIntParam (Str "42abc") = Some (Finite 42).
Proof.
  apply (proj1 (IntegerParsing.parseIntParam_reads_the_integer_prefix
                  (RT := whole_numbers) (DB := sample_database)) "42abc" 42).
  reflexivity.
Defined.

End Witnesses.

(** * Further properties of the code *)

(** ** The range check and the calendar *)

Module RangeCheck.
Import Constants Utils Queries Routes Calendar Probes.

Lemma days_from_civil_closed y m d :
  JS.days_from_civil y m d
  = days_through (if m <=? 2 then y - 1 else y)
    + (153 * (if 2 <? m then m - 3 else m + 9) + 2) / 5 + d - 1 - 719468.
Proof.
  unfold JS.days_from_civil, days_through.
  set (y' := if m <=? 2 then y - 1 else y).
  set (mp := if 2 <? m then m - 3 else m + 9).
  Z.div_mod_to_equations. lia.
Qed.

Lemma days_through_next y :
  days_through (y + 1) - days_through y = 365 + (if is_leap (y + 1) then 1 else 0).
Proof.
  unfold days_through, is_leap.
  repeat match goal with |- context [?a =? ?b] => destruct (Z.eqb_spec a b) end; simpl;
  Z.div_mod_to_equations; lia.
Qed.

Lemma days_through_previous y :
  days_through y - days_through (y - 1) = 365 + (if is_leap y then 1 else 0).
Proof.
  pose proof (days_through_next (y - 1)) as Hs.
  by replace (y - 1 + 1) with y in Hs by lia.
Qed.

Lemma days_through_lt a b : a < b → days_through a + 365 <= days_through b.
Proof. unfold days_through. intros. Z.div_mod_to_equations. lia. Qed.

Lemma days_through_le a b : a <= b → days_through a <= days_through b.
Proof.
  intros. destruct (Z.eq_dec a b) as [->|]; [lia|].
  pose proof (days_through_lt a b). lia.
Qed.

Lemma calendar_valid_spec y m d :
  calendar_valid y m d = true ↔ 1 <= m <= 12 ∧ 1 <= d <= days_in_month y m.
Proof. unfold calendar_valid. rewrite !andb_true_iff, !Z.leb_le. tauto. Qed.

Ltac evaluate_months :=
  repeat match goal with
         | |- context [Z.leb ?a ?b] =>
             let v := eval vm_compute in (Z.leb a b) in change (Z.leb a b) with v
         | |- context [Z.ltb ?a ?b] =>
             let v := eval vm_compute in (Z.ltb a b) in change (Z.ltb a b) with v
         end;
  cbv iota;
  repeat match goal with
         | |- context [Z.div ?a 5] =>
             let v := eval vm_compute in (Z.div a 5) in change (Z.div a 5) with v
         end.

Ltac month_cases m H :=
  let E := fresh in
  assert (m = 1 ∨ m = 2 ∨ m = 3 ∨ m = 4 ∨ m = 5 ∨ m = 6 ∨ m = 7 ∨ m = 8
          ∨ m = 9 ∨ m = 10 ∨ m = 11 ∨ m = 12) as E by lia;
  clear H;
  destruct E as [->|[->|[->|[->|[->|[->|[->|[->|[->|[->|[->| ->]]]]]]]]]]].

(** The day number grows with the calendar date. *)
Lemma days_from_civil_lt y1 m1 d1 y2 m2 d2 :
  calendar_valid y1 m1 d1 = true → calendar_valid y2 m2 d2 = true →
  y1 < y2 ∨ (y1 = y2 ∧ (m1 < m2 ∨ (m1 = m2 ∧ d1 < d2))) →
  JS.days_from_civil y1 m1 d1 < JS.days_from_civil y2 m2 d2.
Proof.
  intros [Hm1 Hd1]%calendar_valid_spec [Hm2 Hd2]%calendar_valid_spec Hlex.
  pose proof (days_through_previous y1) as S1.
  pose proof (days_through_next y1) as S2.
  pose proof (days_through_le y1 (y2 - 1)) as L1.
  pose proof (days_through_le (y1 + 1) (y2 - 1)) as L3.
  pose proof (days_through_le (y1 + 1) y2) as L4.
  destruct (is_leap (y1 + 1)); destruct (is_leap y1) eqn:Eleap.
  all: assert (y1 < y2 ∨ y1 = y2) as [Hy| <-] by lia.
  all: month_cases m1 Hm1; month_cases m2 Hm2.
  all: unfold days_in_month in Hd1, Hd2.
  all: rewrite !days_from_civil_closed; evaluate_months.
  all: cbn [Z.eqb Pos.eqb orb] in Hd1, Hd2; try rewrite Eleap in Hd1.
  all: try (destruct (is_leap y2)); lia.
Qed.

Lemma ascii_compare_code a b : Ascii.compare a b = (JS.code a ?= JS.code b).
Proof.
  unfold Ascii.compare, JS.code, nat_of_ascii.
  rewrite !N_nat_Z. symmetry. apply N2Z.inj_compare.
Qed.

Lemma date_fields_range s :
  regex_test DATE_REGEX s = true →
  0 <= year_of s <= 9999 ∧ 0 <= month_of s <= 99 ∧ 0 <= day_of s <= 99.
Proof.
  intros (y1&y2&y3&y4&m1&m2&d1&d2&->&Hd)%DateValidation.DATE_REGEX_shape.
  repeat match goal with
         | H : Forall _ (_ :: _) |- _ =>
             apply Forall_cons in H as [?%DateValidation.digit_value_range H]
         end.
  unfold year_of, month_of, day_of. cbn. lia.
Qed.

(** On strings of the shape [dddd-dd-dd] the order of code units is the
    order of year, month and day. *)
Lemma date_compare s e :
  regex_test DATE_REGEX s = true → regex_test DATE_REGEX e = true →
  String.compare e s = (date_key e ?= date_key s).
Proof.
  intros (y1&y2&y3&y4&m1&m2&d1&d2&->&Hs)%DateValidation.DATE_REGEX_shape
         (a1&a2&a3&a4&b1&b2&c1&c2&->&He)%DateValidation.DATE_REGEX_shape.
  repeat match goal with
         | H : Forall _ (_ :: _) |- _ =>
             apply Forall_cons in H as [?%DateValidation.digit_value_range H]
         end.
  unfold date_key, year_of, month_of, day_of. cbn [String.substring JS.digits_value].
  cbn [String.compare]. rewrite !ascii_compare_code.
  unfold JS.digit_value in *.
  change (JS.code "-") with 45. rewrite Z.compare_refl.
  repeat match goal with
         | |- context [JS.code ?c] => generalize dependent (JS.code c); intros
         end.
  repeat match goal with
         | |- match (?a ?= ?b) with _ => _ end = _ =>
             destruct (Z.compare_spec a b);
             [ subst | symmetry; apply Z.compare_lt_iff; lia
             | symmetry; apply Z.compare_gt_iff; lia ]
         end.
  symmetry. apply Z.compare_eq_iff. lia.
Qed.

Lemma date_in_Return s d :
  Postgres.date_in s = Return d →
  regex_test DATE_REGEX s = true
  ∧ calendar_valid (year_of s) (month_of s) (day_of s) = true
  ∧ d = JS.days_from_civil (year_of s) (month_of s) (day_of s).
Proof.
  unfold Postgres.date_in.
  destruct (regex_test DATE_REGEX s); [|discriminate].
  destruct (1 <=? year_of s); [|discriminate].
  destruct (calendar_valid _ _ _); [|discriminate].
  by intros [= <-].
Qed.

(** X1.  For two bounds that PostgreSQL reads as dates, the range check of
    the handlers ([startDate > endDate], a comparison of strings) holds
    exactly when the end date lies before the start date in the calendar. *)
Theorem range_check_is_calendar_order s e ds de :
  Postgres.date_in s = Return ds → Postgres.date_in e = Return de →
  out_of_order (Some s) (Some e) = true ↔ de < ds.
Proof.
  intros (Hs & Vs & ->)%date_in_Return (He & Ve & ->)%date_in_Return.
  unfold out_of_order.
  assert (JS.truthy_string s = true) as ->
    by (destruct s; [discriminate Hs|reflexivity]).
  assert (JS.truthy_string e = true) as ->
    by (destruct e; [discriminate He|reflexivity]).
  unfold String.ltb. rewrite (date_compare s e Hs He). simpl.
  pose proof (date_fields_range s Hs) as Rs.
  pose proof (date_fields_range e He) as Re.
  pose proof (days_from_civil_lt (year_of e) (month_of e) (day_of e)
                (year_of s) (month_of s) (day_of s) Ve Vs) as Hlt.
  pose proof (days_from_civil_lt (year_of s) (month_of s) (day_of s)
                (year_of e) (month_of e) (day_of e) Vs Ve) as Hgt.
  unfold date_key.
  destruct (Z.compare_spec (year_of e * 10000 + month_of e * 100 + day_of e)
              (year_of s * 10000 + month_of s * 100 + day_of s)) as [Heq|Hl|Hg].
  - assert (year_of e = year_of s ∧ month_of e = month_of s ∧ day_of e = day_of s)
      as (-> & -> & ->) by lia.
    split; [discriminate|lia].
  - split; [intros _|reflexivity]. apply Hlt. lia.
  - split; [discriminate|]. intros Hd.
    assert (JS.days_from_civil (year_of s) (month_of s) (day_of s)
            < JS.days_from_civil (year_of e) (month_of e) (day_of e))
      by (apply Hgt; lia).
    lia.
Qed.

End RangeCheck.

(** ** Placeholders and parameters *)

Module Placeholders.
Import Constants Utils Queries Routes Vocabulary Probes.

Ltac filters :=
  repeat match goal with
         | x : option string |- _ => destruct x as [[|? ?]|]
         | x : option number |- _ => destruct x as [[[| ? | ?]| | |]|]
         end.

Lemma length_supplied_string x :
  length (supplied_string x) = if JS.truthy_ostr x then 1%nat else 0%nat.
Proof. by destruct x as [[|? ?]|]. Qed.

Lemma length_supplied_number x :
  length (supplied_number x) = if JS.truthy_onum x then 1%nat else 0%nat.
Proof. by destruct x as [[[| ? | ?]| | |]|]. Qed.

(** X2.  In a statement [getTimeSeries] builds, the placeholders are
    [$1], [$2], ... in this order, one for each bound parameter. *)
Theorem timeseries_placeholders_number_the_parameters g sd ed uid gid sql params :
  getTimeSeries_statement g sd ed uid gid = Return (sql, params) →
  placeholders sql = seqZ 1 (Z.of_nat (length params)).
Proof.
  intros Hs.
  pose proof (Binding.timeseries_text g sd ed uid gid) as Ht.
  pose proof (Binding.timeseries_params g sd ed uid gid) as Hp.
  rewrite Hs in Ht, Hp. cbn [fmap Result_fmap fst snd] in Ht, Hp.
  unfold getTimeSeries_statement in Hs, Ht.
  rewrite Binding.getSafeDateTruncInterval_whitelist in Hs, Ht, Hp.
  case_bool_decide as Hg; [|discriminate]. clear Hs.
  injection Hp as ->.
  rewrite !length_app, !length_supplied_string, !length_supplied_number.
  unfold mask_string, mask_number in Ht.
  unfold VALID_GRANULARITIES in Hg.
  rewrite !elem_of_cons, elem_of_nil in Hg.
  destruct Hg as [->|[->|[->|[->|[->|[]]]]]];
    destruct (JS.truthy_ostr sd), (JS.truthy_ostr ed), (JS.truthy_onum uid),
      (JS.truthy_onum gid);
    vm_compute in Ht; injection Ht as ->; vm_compute; reflexivity.
Qed.

(** X3.  The same holds for the statements of [getUserPerformance] (with
    its LIMIT and OFFSET), [getGroupPerformance], [getLeaderboard] and
    [getSummaryStats], whatever filters are supplied. *)
Theorem placeholders_number_the_parameters :
  (∀ sd ed uid limit offset,
     placeholders (getUserPerformance_statement sd ed uid limit offset).1
     = seqZ 1 (Z.of_nat (length (getUserPerformance_statement sd ed uid limit offset).2)))
  ∧ (∀ sd ed gid,
       placeholders (getGroupPerformance_statement sd ed gid).1
       = seqZ 1 (Z.of_nat (length (getGroupPerformance_statement sd ed gid).2)))
  ∧ (∀ sd ed limit,
       placeholders (getLeaderboard_statement sd ed limit).1
       = seqZ 1 (Z.of_nat (length (getLeaderboard_statement sd ed limit).2)))
  ∧ (∀ sd ed,
       placeholders (getSummaryStats_statement sd ed).1
       = seqZ 1 (Z.of_nat (length (getSummaryStats_statement sd ed).2))).
Proof.
  repeat split.
  - intros sd ed uid limit offset.
    destruct limit, offset; filters; vm_compute; reflexivity.
  - intros sd ed gid. filters; vm_compute; reflexivity.
  - intros sd ed limit. destruct limit; filters; vm_compute; reflexivity.
  - intros sd ed. filters; vm_compute; reflexivity.
Qed.

(** X4.  The statement of [getPeriodComparison] refers to [$1] to [$4],
    each in the CASE and in the WHERE clause, and four parameters are
    bound. *)
Theorem comparison_placeholders_are_bound cs ce ps pe :
  placeholders (getPeriodComparison_statement cs ce ps pe).1 = [1; 2; 3; 4; 1; 2; 3; 4]
  ∧ length (getPeriodComparison_statement cs ce ps pe).2 = 4%nat.
Proof. split; reflexivity. Qed.

End Placeholders.

(** ** What decides the status of a response *)

Module Responses.
Import Constants Utils Queries Routes Vocabulary Probes Summary.

Section TwoDatabases.
Context {RT : Runtime} (DB1 DB2 : Database) (SB1 SB2 : SummaryDatabase).

Ltac checks_first :=
  cbv zeta;
  repeat match goal with
         | |- context [if ?b then sendError _ _ _ else _] => destruct b; [done|]
         end.

Lemma timeseries_checks_first req :
  status_of (timeseries (DB := DB1) req) = HTTP_STATUS.BAD_REQUEST →
  timeseries (DB := DB1) req = timeseries (DB := DB2) req.
Proof. unfold timeseries. checks_first. by destruct (getTimeSeries _ _ _ _ _). Qed.

Lemma users_checks_first req :
  status_of (users (DB := DB1) req) = HTTP_STATUS.BAD_REQUEST →
  users (DB := DB1) req = users (DB := DB2) req.
Proof. unfold users. checks_first. by destruct (getUserPerformance _ _ _ _ _). Qed.

Lemma groups_checks_first req :
  status_of (groups (DB := DB1) req) = HTTP_STATUS.BAD_REQUEST →
  groups (DB := DB1) req = groups (DB := DB2) req.
Proof. unfold groups. checks_first. by destruct (getGroupPerformance _ _ _). Qed.

Lemma leaderboard_checks_first req :
  status_of (leaderboard (DB := DB1) req) = HTTP_STATUS.BAD_REQUEST →
  leaderboard (DB := DB1) req = leaderboard (DB := DB2) req.
Proof. unfold leaderboard. checks_first. by destruct (getLeaderboard _ _ _). Qed.

Lemma summary_checks_first req :
  status_of (summary (DB := SB1) req) = HTTP_STATUS.BAD_REQUEST →
  summary (DB := SB1) req = summary (DB := SB2) req.
Proof. unfold summary. checks_first. by destruct (getSummaryStats _ _). Qed.

Lemma compare_checks_first req :
  status_of (compare (DB := DB1) req) = HTTP_STATUS.BAD_REQUEST →
  compare (DB := DB1) req = compare (DB := DB2) req.
Proof. unfold compare. cbv zeta. repeat case_match; try done. Qed.

(** X5.  A response with status 400 is decided before the data base is
    asked: each of the six handlers gives the same response over any other
    data base. *)
Theorem validation_precedes_the_database req :
  (status_of (timeseries (DB := DB1) req) = HTTP_STATUS.BAD_REQUEST →
   timeseries (DB := DB1) req = timeseries (DB := DB2) req)
  ∧ (status_of (users (DB := DB1) req) = HTTP_STATUS.BAD_REQUEST →
     users (DB := DB1) req = users (DB := DB2) req)
  ∧ (status_of (groups (DB := DB1) req) = HTTP_STATUS.BAD_REQUEST →
     groups (DB := DB1) req = groups (DB := DB2) req)
  ∧ (status_of (leaderboard (DB := DB1) req) = HTTP_STATUS.BAD_REQUEST →
     leaderboard (DB := DB1) req = leaderboard (DB := DB2) req)
  ∧ (status_of (summary (DB := SB1) req) = HTTP_STATUS.BAD_REQUEST →
     summary (DB := SB1) req = summary (DB := SB2) req)
  ∧ (status_of (compare (DB := DB1) req) = HTTP_STATUS.BAD_REQUEST →
     compare (DB := DB1) req = compare (DB := DB2) req).
Proof.
  split; [apply timeseries_checks_first|].
  split; [apply users_checks_first|].
  split; [apply groups_checks_first|].
  split; [apply leaderboard_checks_first|].
  split; [apply summary_checks_first|apply compare_checks_first].
Qed.

End TwoDatabases.

Section OneDatabase.
Context {RT : Runtime} {DB : Database} {SB : SummaryDatabase}.

Ltac passes :=
  cbv zeta;
  repeat match goal with
         | |- context [if ?b then sendError _ _ _ else _] =>
             destruct b eqn:?; [discriminate|]
         end.

Ltac accepted :=
  cbv zeta;
  repeat match goal with
         | |- context [if ?b then sendError _ _ _ else _] =>
             destruct b; [by intros [[] _]|]
         end.

(** The granularity [timeseries] passes on is one of the five, so
    [getSafeDateTruncInterval] returns it. *)
Lemma granularity_of_valid req :
  granularity_of req ∈ VALID_GRANULARITIES
  ∧ getSafeDateTruncInterval (granularity_of req) = Return (granularity_of req).
Proof.
  rewrite Binding.getSafeDateTruncInterval_whitelist. unfold granularity_of.
  destruct (parseStringParam (param req "granularity")) as [g|]; [|split; [|done]].
  - unfold isValidGranularity.
    destruct (bool_decide (g ∈ VALID_GRANULARITIES)) eqn:Hg.
    + rewrite Hg. split; [|done]. by apply bool_decide_eq_true in Hg.
    + split; [|done]. unfold VALID_GRANULARITIES. rewrite !elem_of_cons. tauto.
  - unfold VALID_GRANULARITIES. rewrite !elem_of_cons. tauto.
Qed.

Lemma timeseries_500 req :
  status_of (timeseries req) = HTTP_STATUS.INTERNAL_ERROR
  ↔ status_of (timeseries req) ≠ HTTP_STATUS.BAD_REQUEST
    ∧ ∃ sql params,
        getTimeSeries_statement (granularity_of req)
          (parseStringParam (param req "start_date"))
          (parseStringParam (param req "end_date"))
          (parseIntParam (param req "user_id"))
          (parseIntParam (param req "group_id")) = Return (sql, params)
        ∧ failed_or_null (query_TimeSeriesRow sql params)
            (λ row, TimeSeriesRow.period row = None
                    ∨ TimeSeriesRow.average_revenue row = None).
Proof.
  destruct (granularity_of_valid req) as [_ Hsafe]. split.
  - intros H500. split; [by rewrite H500|]. revert H500.
    unfold timeseries. passes. fold (granularity_of req). unfold getTimeSeries.
    destruct (getTimeSeries_statement (granularity_of req) _ _ _ _)
      as [[sql params]|] eqn:Hs.
    + cbn [mbind Result_bind]. intros H500. exists sql, params. split; [done|].
      destruct (query_TimeSeriesRow sql params) as [rows|message] eqn:Hq;
        [|left; eauto].
      right. exists rows. cbn [mbind Result_bind] in H500.
      match type of H500 with
      | context [@mapM _ _ _ _ _ ?f rows] =>
          destruct (mapM f rows) as [points|message] eqn:Hm; [discriminate H500|]
      end.
      apply Traversal.mapM_Throw in Hm as (row & Hin & Hrow).
      exists row. split; [done|]. split; [done|].
      destruct (TimeSeriesRow.period row); [|by left].
      destruct (TimeSeriesRow.average_revenue row); [discriminate Hrow|by right].
    + unfold getTimeSeries_statement in Hs. rewrite Hsafe in Hs. discriminate Hs.
  - unfold timeseries. accepted. fold (granularity_of req).
    intros (_ & sql & params & Hs & Hf). unfold getTimeSeries. rewrite Hs.
    cbn [mbind Result_bind].
    destruct Hf as [[message Hq]|(rows & row & Hq & Hin & Hnull)]; rewrite Hq;
      [reflexivity|].
    cbn [mbind Result_bind].
    match goal with
    | |- context [@mapM _ _ _ _ _ ?f rows] =>
        destruct (Traversal.mapM_throws f rows row Hin) as [message ->];
        [|reflexivity]
    end.
    destruct Hnull as [-> | Hnull]; [by eexists|].
    destruct (TimeSeriesRow.period row); rewrite ?Hnull; by eexists.
Qed.

Lemma users_500 req :
  status_of (users req) = HTTP_STATUS.INTERNAL_ERROR
  ↔ status_of (users req) ≠ HTTP_STATUS.BAD_REQUEST
    ∧ failed_or_null
        (query_UserPerformanceRow
           (getUserPerformance_statement
              (parseStringParam (param req "start_date"))
              (parseStringParam (param req "end_date"))
              (parseIntParam (param req "user_id"))
              (parseIntParam (param req "limit"))
              (parseIntParam (param req "offset"))).1
           (getUserPerformance_statement
              (parseStringParam (param req "start_date"))
              (parseStringParam (param req "end_date"))
              (parseIntParam (param req "user_id"))
              (parseIntParam (param req "limit"))
              (parseIntParam (param req "offset"))).2)
        (λ row, UserPerformanceRow.average_revenue row = None).
Proof.
  split.
  - intros H500. split; [by rewrite H500|]. revert H500.
    unfold users. passes. unfold getUserPerformance.
    destruct (getUserPerformance_statement _ _ _ _ _) as [sql params].
    cbn [fst snd]. intros H500.
    destruct (query_UserPerformanceRow sql params) as [rows|message] eqn:Hq;
      [|left; eauto].
    right. exists rows. cbn [mbind Result_bind] in H500.
    match type of H500 with
    | context [@mapM _ _ _ _ _ ?f rows] =>
        destruct (mapM f rows) as [points|message] eqn:Hm; [discriminate H500|]
    end.
    apply Traversal.mapM_Throw in Hm as (row & Hin & Hrow).
    exists row. split; [done|]. split; [done|].
    by destruct (UserPerformanceRow.average_revenue row).
  - unfold users. accepted. unfold getUserPerformance.
    destruct (getUserPerformance_statement _ _ _ _ _) as [sql params].
    cbn [fst snd].
    intros (_ & [[message Hq]|(rows & row & Hq & Hin & Hnull)]); rewrite Hq;
      [reflexivity|].
    cbn [mbind Result_bind].
    match goal with
    | |- context [@mapM _ _ _ _ _ ?f rows] =>
        destruct (Traversal.mapM_throws f rows row Hin) as [message ->];
        [|reflexivity]
    end.
    rewrite Hnull. by eexists.
Qed.

Lemma groups_500 req :
  status_of (groups req) = HTTP_STATUS.INTERNAL_ERROR
  ↔ status_of (groups req) ≠ HTTP_STATUS.BAD_REQUEST
    ∧ failed_or_null
        (query_GroupPerformanceRow
           (getGroupPerformance_statement
              (parseStringParam (param req "start_date"))
              (parseStringParam (param req "end_date"))
              (parseIntParam (param req "group_id"))).1
           (getGroupPerformance_statement
              (parseStringParam (param req "start_date"))
              (parseStringParam (param req "end_date"))
              (parseIntParam (param req "group_id"))).2)
        (λ row, GroupPerformanceRow.average_revenue row = None).
Proof.
  split.
  - intros H500. split; [by rewrite H500|]. revert H500.
    unfold groups. passes. unfold getGroupPerformance.
    destruct (getGroupPerformance_statement _ _ _) as [sql params].
    cbn [fst snd]. intros H500.
    destruct (query_GroupPerformanceRow sql params) as [rows|message] eqn:Hq;
      [|left; eauto].
    right. exists rows. cbn [mbind Result_bind] in H500.
    match type of H500 with
    | context [@mapM _ _ _ _ _ ?f rows] =>
        destruct (mapM f rows) as [points|message] eqn:Hm; [discriminate H500|]
    end.
    apply Traversal.mapM_Throw in Hm as (row & Hin & Hrow).
    exists row. split; [done|]. split; [done|].
    by destruct (GroupPerformanceRow.average_revenue row).
  - unfold groups. accepted. unfold getGroupPerformance.
    destruct (getGroupPerformance_statement _ _ _) as [sql params].
    cbn [fst snd].
    intros (_ & [[message Hq]|(rows & row & Hq & Hin & Hnull)]); rewrite Hq;
      [reflexivity|].
    cbn [mbind Result_bind].
    match goal with
    | |- context [@mapM _ _ _ _ _ ?f rows] =>
        destruct (Traversal.mapM_throws f rows row Hin) as [message ->];
        [|reflexivity]
    end.
    rewrite Hnull. by eexists.
Qed.

Lemma leaderboard_500 req :
  status_of (leaderboard req) = HTTP_STATUS.INTERNAL_ERROR
  ↔ status_of (leaderboard req) ≠ HTTP_STATUS.BAD_REQUEST
    ∧ ∃ message,
        query_LeaderboardRow
          (getLeaderboard_statement
             (parseStringParam (param req "start_date"))
             (parseStringParam (param req "end_date"))
             (Some (default PAGINATION.DEFAULT_LIMIT
                      (parseIntParam (param req "limit"))))).1
          (getLeaderboard_statement
             (parseStringParam (param req "start_date"))
             (parseStringParam (param req "end_date"))
             (Some (default PAGINATION.DEFAULT_LIMIT
                      (parseIntParam (param req "limit"))))).2
        = Throw message.
Proof.
  split.
  - intros H500. split; [by rewrite H500|]. revert H500.
    unfold leaderboard. passes. unfold getLeaderboard.
    destruct (getLeaderboard_statement _ _ _) as [sql params].
    cbn [mbind Result_bind fst snd].
    destruct (query_LeaderboardRow sql params) as [rows|message] eqn:Hq;
      [discriminate|by exists message].
  - unfold leaderboard. accepted. unfold getLeaderboard.
    destruct (getLeaderboard_statement _ _ _) as [sql params].
    cbn [fst snd]. intros (_ & message & ->). reflexivity.
Qed.

Lemma compare_500 req :
  status_of (compare req) = HTTP_STATUS.INTERNAL_ERROR
  ↔ status_of (compare req) ≠ HTTP_STATUS.BAD_REQUEST
    ∧ ∃ cs ce ps pe,
        parseStringParam (param req "current_start") = Some cs
        ∧ parseStringParam (param req "current_end") = Some ce
        ∧ parseStringParam (param req "previous_start") = Some ps
        ∧ parseStringParam (param req "previous_end") = Some pe
        ∧ ((∃ message,
              query_ComparisonRow (getPeriodComparison_statement cs ce ps pe).1
                (getPeriodComparison_statement cs ce ps pe).2 = Throw message)
           ∨ (∃ rows label row,
                query_ComparisonRow (getPeriodComparison_statement cs ce ps pe).1
                  (getPeriodComparison_statement cs ce ps pe).2 = Return rows
                ∧ (label = "current" ∨ label = "previous")
                ∧ List.find (λ r, String.eqb (ComparisonRow.period_label r) label) rows
                  = Some row
                ∧ ComparisonRow.average_revenue row = None)).
Proof.
  split.
  - intros H500. split; [by rewrite H500|]. revert H500.
    unfold compare. cbv zeta.
    destruct (parseStringParam (param req "current_start")) as [cs|]; [|discriminate].
    destruct (parseStringParam (param req "current_end")) as [ce|]; [|discriminate].
    destruct (parseStringParam (param req "previous_start")) as [ps|]; [|discriminate].
    destruct (parseStringParam (param req "previous_end")) as [pe|]; [|discriminate].
    destruct (_ || _); [discriminate|].
    destruct (List.find _ _); [discriminate|].
    unfold getPeriodComparison. cbv zeta.
    cbn [getPeriodComparison_statement mbind Result_bind fst snd].
    match goal with
    | |- context [query_ComparisonRow ?sql ?params] =>
        destruct (query_ComparisonRow sql params) as [rows|message] eqn:Hq
    end.
    + cbn [mbind Result_bind]. unfold period_metrics.
      destruct (List.find (λ r, String.eqb (ComparisonRow.period_label r) "current") rows)
        as [current|] eqn:Ec;
        [destruct (ComparisonRow.average_revenue current) eqn:Eac|];
        (destruct (List.find (λ r, String.eqb (ComparisonRow.period_label r) "previous")
                     rows) as [previous|] eqn:Ep;
         [destruct (ComparisonRow.average_revenue previous) eqn:Eap|]);
        cbn; intros H500; try discriminate H500;
        exists cs, ce, ps, pe; repeat (split; [reflexivity|]); right; exists rows.
      all: first
             [ exists "current", current;
               split; [exact Hq|]; split; [by left|]; split; [exact Ec|exact Eac]
             | exists "previous", previous;
               split; [exact Hq|]; split; [by right|]; split; [exact Ep|exact Eap] ].
    + intros _. exists cs, ce, ps, pe. repeat (split; [reflexivity|]). eauto.
  - unfold compare. cbv zeta.
    intros (H400 & cs & ce & ps & pe & Hcs & Hce & Hps & Hpe & Hf). revert H400.
    rewrite Hcs, Hce, Hps, Hpe.
    destruct (_ || _); [by intros []|].
    destruct (List.find _ _); [by intros []|].
    intros _. unfold getPeriodComparison. cbv zeta.
    cbn [getPeriodComparison_statement mbind Result_bind fst snd] in Hf |- *.
    destruct Hf as [[message Hq]|(rows & label & row & Hq & Hlabel & Hfind & Hnull)];
      rewrite Hq; [reflexivity|].
    cbn [mbind Result_bind]. unfold period_metrics.
    destruct Hlabel as [-> | ->].
    + rewrite Hfind, Hnull. reflexivity.
    + rewrite Hfind, Hnull.
      destruct (List.find (λ r, String.eqb (ComparisonRow.period_label r) "current") rows)
        as [current|]; [|reflexivity].
      by destruct (ComparisonRow.average_revenue current).
Qed.

(** X6.  Five handlers answer 500 exactly when the request is not refused
    with 400 and the data base failed on the statement built for it, or
    answered with a row that holds NULL in a column the mapping
    dereferences: the period or the average for [timeseries], the average
    for [users] and [groups], the average of the row found for one of the
    two labels for [compare]; [leaderboard] dereferences none.  Nothing else
    in them throws: the granularity [timeseries] passes on is always one of
    the five. *)
Theorem internal_error_is_a_failed_query_or_a_null req :
  granularity_of req ∈ VALID_GRANULARITIES
  ∧ (status_of (timeseries req) = HTTP_STATUS.INTERNAL_ERROR
     ↔ status_of (timeseries req) ≠ HTTP_STATUS.BAD_REQUEST
       ∧ ∃ sql params,
           getTimeSeries_statement (granularity_of req)
             (parseStringParam (param req "start_date"))
             (parseStringParam (param req "end_date"))
             (parseIntParam (param req "user_id"))
             (parseIntParam (param req "group_id")) = Return (sql, params)
           ∧ failed_or_null (query_TimeSeriesRow sql params)
               (λ row, TimeSeriesRow.period row = None
                       ∨ TimeSeriesRow.average_revenue row = None))
  ∧ (status_of (users req) = HTTP_STATUS.INTERNAL_ERROR
     ↔ status_of (users req) ≠ HTTP_STATUS.BAD_REQUEST
       ∧ failed_or_null
           (query_UserPerformanceRow
              (getUserPerformance_statement
                 (parseStringParam (param req "start_date"))
                 (parseStringParam (param req "end_date"))
                 (parseIntParam (param req "user_id"))
                 (parseIntParam (param req "limit"))
                 (parseIntParam (param req "offset"))).1
              (getUserPerformance_statement
                 (parseStringParam (param req "start_date"))
                 (parseStringParam (param req "end_date"))
                 (parseIntParam (param req "user_id"))
                 (parseIntParam (param req "limit"))
                 (parseIntParam (param req "offset"))).2)
           (λ row, UserPerformanceRow.average_revenue row = None))
  ∧ (status_of (groups req) = HTTP_STATUS.INTERNAL_ERROR
     ↔ status_of (groups req) ≠ HTTP_STATUS.BAD_REQUEST
       ∧ failed_or_null
           (query_GroupPerformanceRow
              (getGroupPerformance_statement
                 (parseStringParam (param req "start_date"))
                 (parseStringParam (param req "end_date"))
                 (parseIntParam (param req "group_id"))).1
              (getGroupPerformance_statement
                 (parseStringParam (param req "start_date"))
                 (parseStringParam (param req "end_date"))
                 (parseIntParam (param req "group_id"))).2)
           (λ row, GroupPerformanceRow.average_revenue row = None))
  ∧ (status_of (leaderboard req) = HTTP_STATUS.INTERNAL_ERROR
     ↔ status_of (leaderboard req) ≠ HTTP_STATUS.BAD_REQUEST
       ∧ ∃ message,
           query_LeaderboardRow
             (getLeaderboard_statement
                (parseStringParam (param req "start_date"))
                (parseStringParam (param req "end_date"))
                (Some (default PAGINATION.DEFAULT_LIMIT
                         (parseIntParam (param req "limit"))))).1
             (getLeaderboard_statement
                (parseStringParam (param req "start_date"))
                (parseStringParam (param req "end_date"))
                (Some (default PAGINATION.DEFAULT_LIMIT
                         (parseIntParam (param req "limit"))))).2
           = Throw message)
  ∧ (status_of (compare req) = HTTP_STATUS.INTERNAL_ERROR
     ↔ status_of (compare req) ≠ HTTP_STATUS.BAD_REQUEST
       ∧ ∃ cs ce ps pe,
           parseStringParam (param req "current_start") = Some cs
           ∧ parseStringParam (param req "current_end") = Some ce
           ∧ parseStringParam (param req "previous_start") = Some ps
           ∧ parseStringParam (param req "previous_end") = Some pe
           ∧ ((∃ message,
                 query_ComparisonRow (getPeriodComparison_statement cs ce ps pe).1
                   (getPeriodComparison_statement cs ce ps pe).2 = Throw message)
              ∨ (∃ rows label row,
                   query_ComparisonRow (getPeriodComparison_statement cs ce ps pe).1
                     (getPeriodComparison_statement cs ce ps pe).2 = Return rows
                   ∧ (label = "current" ∨ label = "previous")
                   ∧ List.find
                       (λ r, String.eqb (ComparisonRow.period_label r) label) rows
                     = Some row
                   ∧ ComparisonRow.average_revenue row = None))).
Proof.
  split; [apply granularity_of_valid|].
  split; [apply timeseries_500|].
  split; [apply users_500|].
  split; [apply groups_500|].
  split; [apply leaderboard_500|apply compare_500].
Qed.

(** X7.  [getSummaryStats] returns exactly when the data base answers
    with a first row whose average and first and last dates are not NULL:
    on a NULL it throws a TypeError, and on no row at all as well. *)
Theorem getSummaryStats_returns_on_a_complete_row sd ed :
  (∃ stats, getSummaryStats sd ed = Return stats)
  ↔ ∃ row rest,
      query_SummaryStatsRow (getSummaryStats_statement sd ed).1
        (getSummaryStats_statement sd ed).2 = Return (row :: rest)
      ∧ complete row.
Proof.
  unfold getSummaryStats, complete.
  destruct (getSummaryStats_statement sd ed) as [sql params]. cbn [fst snd].
  destruct (query_SummaryStatsRow sql params) as [[|row rest]|message];
    cbn [mbind Result_bind].
  - split; [by intros [? ?]|by intros (? & ? & ? & _)].
  - destruct (SummaryStatsRow.average_sale row) as [avg|] eqn:Ea,
      (SummaryStatsRow.first_sale_date row) as [first|] eqn:Ef,
      (SummaryStatsRow.last_sale_date row) as [final|] eqn:El;
      cbn [formatDecimal_of formatDateString_of mbind Result_bind mret Result_ret];
      (split;
       [ intros [stats Hs]; try discriminate Hs;
         exists row, rest; rewrite Ea, Ef, El; repeat split; eauto
       | intros (row' & rest' & [= <- <-] & [? Ha] & [? Hf] & [? Hl]);
         try congruence; eauto ]).
  - split; [by intros [? ?]|by intros (? & ? & ? & _)].
Qed.

(** X8.  When the dates pass the checks and the first row of the answer
    holds a NULL in one of these columns (as the aggregate over no sale
    does), [summary] answers 500. *)
Theorem summary_fails_on_null_aggregates req row rest :
  date_checks_pass req = true →
  query_SummaryStatsRow
    (getSummaryStats_statement (parseStringParam (param req "start_date"))
       (parseStringParam (param req "end_date"))).1
    (getSummaryStats_statement (parseStringParam (param req "start_date"))
       (parseStringParam (param req "end_date"))).2 = Return (row :: rest) →
  ¬ complete row →
  summary req
  = sendError HTTP_STATUS.INTERNAL_ERROR ERROR_CODES.INTERNAL_ERROR
      "Failed to fetch summary statistics".
Proof.
  intros (Hs & He & Ho)%Validation.date_checks Hq Hrow.
  unfold summary. cbv zeta. rewrite Hs, He, Ho.
  unfold getSummaryStats.
  destruct (getSummaryStats_statement _ _) as [sql params]. cbn [fst snd] in Hq.
  rewrite Hq. cbn [mbind Result_bind]. unfold complete in Hrow.
  destruct (SummaryStatsRow.average_sale row) as [avg|]; [|reflexivity].
  destruct (SummaryStatsRow.first_sale_date row) as [first|]; [|reflexivity].
  destruct (SummaryStatsRow.last_sale_date row) as [final|]; [|reflexivity].
  destruct Hrow. eauto.
Qed.

End OneDatabase.
End Responses.

(** ** Parameters that cannot be used *)

Module Unusable.
Import Constants Utils Queries Routes Vocabulary Probes Summary.

Lemma param_with_value_eq key v req : param (with_value key v req) key = v.
Proof. unfold param, with_value. simpl. by rewrite lookup_insert_eq. Qed.

Lemma param_with_value_ne key key' v req :
  key ≠ key' → param (with_value key v req) key' = param req key'.
Proof. intros. unfold param, with_value. simpl. by rewrite lookup_insert_ne. Qed.

(** What [parseStringParam] and [parseIntParam] turn into [undefined]. *)
Lemma parseStringParam_None v :
  parseStringParam v = None ↔ ∀ s, v = Str s → s = "".
Proof.
  destruct v as [|s|]; simpl;
    [by split; [intros _ ? [=]|]| |by split; [intros _ ? [=]|]].
  destruct s as [|c s]; [by split; [intros _ ? [= <-]|]|].
  split; [discriminate|]. intros H. by specialize (H _ eq_refl).
Qed.

Lemma parseStringParam_with_value key key' v req :
  parseStringParam v = None →
  parseStringParam (param (with_value key v req) key')
  = parseStringParam (param (without_param key req) key').
Proof.
  intros Hv. destruct (decide (key = key')) as [<-|Hne].
  - by rewrite param_with_value_eq, Requests.param_without_eq.
  - by rewrite param_with_value_ne, Requests.param_without_ne.
Qed.

Lemma parseIntParam_with_value key key' v req :
  parseIntParam v = None →
  parseIntParam (param (with_value key v req) key')
  = parseIntParam (param (without_param key req) key').
Proof.
  intros Hv. destruct (decide (key = key')) as [<-|Hne].
  - by rewrite param_with_value_eq, Requests.param_without_eq.
  - by rewrite param_with_value_ne, Requests.param_without_ne.
Qed.

Lemma param_other_with_value key key' v req :
  key ≠ key' →
  param (with_value key v req) key' = param (without_param key req) key'.
Proof. intros. by rewrite param_with_value_ne, Requests.param_without_ne. Qed.

Section WithDatabase.
Context {RT : Runtime} {DB : Database} {SB : SummaryDatabase}.

(** X9.  A text parameter whose value is empty or no string (a repeated
    key, a nested object) is treated by every handler as if it had not been
    sent. *)
Theorem unusable_text_is_no_parameter key v req :
  key ∈ ["granularity"; "start_date"; "end_date"; "current_start"; "current_end";
         "previous_start"; "previous_end"] →
  parseStringParam v = None →
  timeseries (with_value key v req) = timeseries (without_param key req)
  ∧ users (with_value key v req) = users (without_param key req)
  ∧ groups (with_value key v req) = groups (without_param key req)
  ∧ leaderboard (with_value key v req) = leaderboard (without_param key req)
  ∧ summary (with_value key v req) = summary (without_param key req)
  ∧ compare (with_value key v req) = compare (without_param key req).
Proof.
  intros Hkey Hv.
  assert (∀ k, k ∈ ["user_id"; "group_id"; "limit"; "offset"] → key ≠ k) as Hne.
  { intros k Hk ->. set_unfold. intuition congruence. }
  unfold timeseries, users, groups, leaderboard, summary, compare.
  rewrite !(parseStringParam_with_value key _ v req Hv).
  rewrite !(param_other_with_value key _ v req)
    by (apply Hne, list_elem_of_In; simpl; auto 10).
  done.
Qed.

(** X10.  A numeric parameter that [parseIntParam] cannot read (no leading
    integer, or no string) is treated as if it had not been sent: no
    handler rejects it. *)
Theorem unusable_number_is_no_parameter key v req :
  key ∈ ["user_id"; "group_id"; "limit"; "offset"] →
  parseIntParam v = None →
  timeseries (with_value key v req) = timeseries (without_param key req)
  ∧ users (with_value key v req) = users (without_param key req)
  ∧ groups (with_value key v req) = groups (without_param key req)
  ∧ leaderboard (with_value key v req) = leaderboard (without_param key req).
Proof.
  intros Hkey Hv.
  assert (∀ k, k ∈ ["granularity"; "start_date"; "end_date"] → key ≠ k) as Hne.
  { intros k Hk ->. set_unfold. intuition congruence. }
  unfold timeseries, users, groups, leaderboard.
  rewrite !(parseIntParam_with_value key _ v req Hv).
  rewrite !(param_other_with_value key _ v req)
    by (apply Hne, list_elem_of_In; simpl; auto 10).
  done.
Qed.

End WithDatabase.
End Unusable.

(** ** Rows read back *)

Module Rows.
Import Constants Utils Queries Routes Vocabulary Probes.

Lemma imap_ranks {A B} (f : nat → A → B) (rank : B → number) (l : list A) :
  (∀ i x, rank (f i x) = Finite (Z.of_nat i + 1)) →
  rank <$> imap f l = Finite <$> seqZ 1 (Z.of_nat (length l)).
Proof.
  intros Hf. apply list_eq. intros i.
  rewrite !list_lookup_fmap, list_lookup_imap.
  destruct (l !! i) as [x|] eqn:Hx; simpl.
  - apply lookup_lt_Some in Hx as Hi. rewrite lookup_seqZ_lt by lia. simpl.
    rewrite Hf. do 2 f_equal. lia.
  - apply lookup_ge_None in Hx. rewrite lookup_seqZ_ge by lia. done.
Qed.

(** A column that the mapping copies or converts, without regard to the
    index. *)
Lemma imap_columns {A B C} (f : nat → A → B) (column : B → C) (of_row : A → C)
    (l : list A) :
  (∀ i x, column (f i x) = of_row x) →
  column <$> imap f l = of_row <$> l.
Proof.
  intros Hf. apply list_eq. intros i.
  rewrite !list_lookup_fmap, list_lookup_imap.
  destruct (l !! i) as [x|]; simpl; [|done]. by rewrite Hf.
Qed.

Lemma append_assoc (a b c : string) : (a +:+ b) +:+ c = a +:+ (b +:+ c).
Proof.
  induction a as [|x a IH]; [done|].
  change (String x ((a +:+ b) +:+ c) = String x (a +:+ (b +:+ c))). by rewrite IH.
Qed.

Lemma digits_value_app acc a b :
  JS.digits_value acc (a +:+ b) = JS.digits_value (JS.digits_value acc a) b.
Proof.
  revert acc. induction a as [|c a IH]; intros acc; [done|].
  change (String c a +:+ b) with (String c (a +:+ b)). simpl. apply IH.
Qed.

Lemma digits_prefix_app a b :
  JS.digits_prefix a = a → JS.digits_prefix (a +:+ b) = a +:+ JS.digits_prefix b.
Proof.
  induction a as [|c a IH]; [done|].
  change (String c a +:+ b) with (String c (a +:+ b)). simpl.
  destruct (JS.is_digit c); [|discriminate]. intros [= Ha].
  change (String c a +:+ JS.digits_prefix b) with (String c (a +:+ JS.digits_prefix b)).
  by rewrite IH.
Qed.

Lemma pretty_N_char_digit x :
  (x < 10)%N →
  JS.is_digit (pretty_N_char x) = true ∧ JS.digit_value (pretty_N_char x) = Z.of_N x.
Proof.
  intros Hx.
  assert (x = 0 ∨ x = 1 ∨ x = 2 ∨ x = 3 ∨ x = 4 ∨ x = 5 ∨ x = 6 ∨ x = 7 ∨ x = 8
          ∨ x = 9)%N as Hc by lia.
  destruct Hc as [->|[->|[->|[->|[->|[->|[->|[->|[->| ->]]]]]]]]]; by vm_compute.
Qed.

Lemma pretty_N_go_app x s : pretty_N_go x s = pretty_N_go x "" +:+ s.
Proof.
  revert s. induction (N.lt_wf_0 x) as [x _ IH]. intros s.
  destruct (decide (0 < x)%N) as [Hx|Hx].
  - rewrite (pretty_N_go_step x s), (pretty_N_go_step x "") by done.
    assert (x `div` 10 < x)%N as Hlt by (apply N.div_lt; lia).
    rewrite (IH _ Hlt (String (pretty_N_char (x `mod` 10)) s)).
    rewrite (IH _ Hlt (String (pretty_N_char (x `mod` 10)) "")).
    by rewrite append_assoc.
  - assert (x = 0%N) as -> by lia. done.
Qed.

(** The decimal text of a natural number is its digits. *)
Lemma pretty_N_go_digits x :
  JS.digits_prefix (pretty_N_go x "") = pretty_N_go x ""
  ∧ JS.digits_value 0 (pretty_N_go x "") = Z.of_N x.
Proof.
  induction (N.lt_wf_0 x) as [x _ IH].
  destruct (decide (0 < x)%N) as [Hx|Hx].
  - rewrite (pretty_N_go_step x "") by done. rewrite pretty_N_go_app.
    destruct (IH (x `div` 10)%N) as [Hp Hv]; [apply N.div_lt; lia|].
    destruct (pretty_N_char_digit (x `mod` 10)%N) as [Hd Hc];
      [apply N.mod_lt; lia|].
    split.
    + rewrite (digits_prefix_app _ _ Hp). simpl. by rewrite Hd.
    + rewrite digits_value_app, Hv. simpl. rewrite Hc.
      rewrite (N.div_mod x 10) at 3 by lia. lia.
  - assert (x = 0%N) as -> by lia. done.
Qed.

Lemma integer_prefix_pretty z : integer_prefix (pretty z) = Some z.
Proof.
  assert (∀ p, ∃ c r, pretty_N_go (N.pos p) "" = String c r
                      ∧ JS.is_digit c = true) as Hfirst.
  { intros p. destruct (pretty_N_go_digits (N.pos p)) as [Hp Hv].
    destruct (pretty_N_go (N.pos p) "") as [|c r]; [simpl in Hv; lia|].
    exists c, r. split; [done|]. simpl in Hp. by destruct (JS.is_digit c). }
  destruct z as [|p|p]; [done| |].
  - change (pretty (Z.pos p)) with (pretty_N_go (N.pos p) "").
    destruct (Hfirst p) as (c & r & Hs & Hd).
    destruct (pretty_N_go_digits (N.pos p)) as [Hp Hv].
    rewrite Hs in *.
    destruct (IntegerParsing.digit_is_no_prefix c Hd) as (_ & Hminus & _).
    unfold integer_prefix. rewrite Hminus, Hp, Hv. f_equal.
  - change (pretty (Z.neg p)) with (String "-" (pretty_N_go (N.pos p) "")).
    destruct (Hfirst p) as (c & r & Hs & Hd).
    destruct (pretty_N_go_digits (N.pos p)) as [Hp Hv].
    unfold integer_prefix. rewrite Ascii.eqb_refl, Hp.
    rewrite Hs in *. rewrite Hv. f_equal.
Qed.

Lemma parseInt_pretty z : JS.parseInt (pretty z) = JS.to_number z.
Proof. apply IntegerParsing.parseInt_integer_prefix, integer_prefix_pretty. Qed.

(** X11.  [parseNumericString] reads the decimal text of an integer (what
    PostgreSQL sends for SUM and COUNT) back as that integer, rounded to
    the nearest double. *)
Theorem parseNumericString_reads_decimal_text z :
  parseNumericString (pretty z) = JS.to_number z.
Proof. unfold parseNumericString. apply parseInt_pretty. Qed.




Section WithDatabase.
Context {RT : Runtime} {DB : Database}.

(** X12.  When the data base answers the leaderboard statement with
    rows, [getLeaderboard] returns one entry for each row, in the order of
    the rows: the i-th entry has the rank i (from 1) and the user id, name
    and role of the i-th row, and its revenue and count are those of the
    row read as numbers. *)
Theorem leaderboard_ranks_the_rows_in_order sd ed limit rows :
  query_LeaderboardRow (getLeaderboard_statement sd ed limit).1
    (getLeaderboard_statement sd ed limit).2 = Return rows →
  ∃ entries,
    getLeaderboard sd ed limit = Return entries
    ∧ LeaderboardEntry.rank <$> entries
      = Finite <$> seqZ 1 (Z.of_nat (length rows))
    ∧ LeaderboardEntry.user_id <$> entries = LeaderboardRow.user_id <$> rows
    ∧ LeaderboardEntry.user_name <$> entries = LeaderboardRow.user_name <$> rows
    ∧ LeaderboardEntry.role <$> entries = LeaderboardRow.role <$> rows
    ∧ LeaderboardEntry.total_revenue <$> entries
      = (λ row, parseNumericString (ToString (LeaderboardRow.total_revenue row)))
          <$> rows
    ∧ LeaderboardEntry.sale_count <$> entries
      = (λ row, parseNumericString (LeaderboardRow.sale_count row)) <$> rows.
Proof.
  intros Hq. unfold getLeaderboard.
  destruct (getLeaderboard_statement sd ed limit) as [sql params].
  cbn [fst snd] in Hq. rewrite Hq. cbn [mbind Result_bind].
  eexists. split; [reflexivity|].
  split; [by apply imap_ranks|].
  repeat split; by apply imap_columns.
Qed.


(** X14.  A granularity that [isValidGranularity] rejects makes
    [getTimeSeries] throw before it asks the data base. *)
Theorem getTimeSeries_refuses_other_granularities g sd ed uid gid :
  isValidGranularity (Str g) = false →
  getTimeSeries g sd ed uid gid = Throw ("Invalid granularity: " +:+ g).
Proof.
  intros Hg. unfold getTimeSeries, getTimeSeries_statement.
  rewrite Binding.getSafeDateTruncInterval_whitelist.
  unfold isValidGranularity in Hg. by rewrite Hg.
Qed.

End WithDatabase.
End Rows.

(** ** Dates sent back *)

Module Formatting.
Import Constants Utils.

Lemma digit_is_not_T c : JS.is_digit c = true → bool_decide (c = "T"%char) = false.
Proof. intros Hd. apply bool_decide_eq_false_2. intros ->. discriminate Hd. Qed.

Section WithRuntime.
Context {RT : Runtime}.

(** X15.  When [toISOString] gives a date of the shape [dddd-dd-dd], the
    letter T and a time, [formatDateString] returns the date. *)
Theorem formatDateString_keeps_the_date date time d :
  toISOString d = date +:+ String "T" time →
  regex_test DATE_REGEX date = true →
  formatDateString d = date.
Proof.
  intros Hiso (y1&y2&y3&y4&m1&m2&d1&d2&->&Hd)%DateValidation.DATE_REGEX_shape.
  repeat match goal with
         | H : Forall _ (_ :: _) |- _ =>
             apply Forall_cons in H as [?%digit_is_not_T H]
         end.
  unfold formatDateString. rewrite Hiso. clear Hiso.
  repeat match goal with
         | |- context [String ?c ?a +:+ ?b] =>
             change (String c a +:+ b) with (String c (a +:+ b))
         end.
  change ("" +:+ String "T" time) with (String "T" time).
  cbn [before_T].
  repeat match goal with H : bool_decide _ = false |- _ => rewrite H; clear H end.
  reflexivity.
Qed.

End WithRuntime.
End Formatting.

(** ** Seeding *)

Module Seeding.
Import Seed Probes.

Ltac run pgclient :=
  unfold seeding, seedDatabase, and_then, issue, log, ret, throw; cbn [app];
  repeat match goal with
         | |- context [pgclient ?h] =>
             match goal with
             | E : pgclient h = _ |- _ => rewrite E
             | _ => let E := fresh "E" in destruct (pgclient h) eqn:E
             end; cbv beta iota; cbn [app]
         | |- context [match ?rows with [] => _ | _ :: _ => _ end] =>
             is_var rows; destruct rows as [|[|] ?]; cbv beta iota; cbn [app]
         end.

Ltac leaves files pgclient h r :=
  let Hrun := fresh "Hrun" in
  remember (seeding files pgclient) as outcome eqn:Hrun; destruct outcome as [h r];
  symmetry in Hrun; revert Hrun; run pgclient; intros [= <- <-].

(** X16.  Whatever the client answers, [seedDatabase] connects first and
    sends its statements in one fixed order: what it has sent is always a
    prefix of the existence check followed by the four pairs of CREATE
    TABLE and INSERT. *)
Theorem seed_statements_in_order files (pgclient : Client) :
  head (seeding files pgclient).1 = Some Connect
  ∧ queries (seeding files pgclient).1 `prefix_of` seed_statements files.
Proof.
  run pgclient.
  all: split; [reflexivity|].
  all: cbn [fst queries omap list_omap]; unfold seed_statements, statements.
  all: by eexists.
Qed.

(** X17.  When [seedDatabase] returns, the existence check had a row, the
    connection was closed last, and the statements sent are the check alone
    if the users table existed and the full list if it did not. *)
Theorem seed_run_to_completion files (pgclient : Client) :
  (seeding files pgclient).2 = Return () →
  ∃ usersTableExists rows,
    pgclient [Connect; Query usersTableExistsQuery] = Return (usersTableExists :: rows)
    ∧ queries (seeding files pgclient).1
      = (if usersTableExists : bool then [usersTableExistsQuery]
         else seed_statements files)
    ∧ last (seeding files pgclient).1 = Some End.
Proof.
  leaves files pgclient h r; cbn [fst snd]; intros Hr; try discriminate Hr.
  all: eexists _, _; split; [reflexivity|]; split; reflexivity.
Qed.

(** X18.  When a call on the client fails, [seedDatabase] makes no further
    call and throws the same error; if the failing call is not the closing
    of the connection, the connection is never closed. *)
Theorem seed_stops_at_first_failure files (pgclient : Client) n c message :
  (seeding files pgclient).1 !! n = Some c →
  (∀ text, c ≠ Log text) →
  pgclient (take (S n) (seeding files pgclient).1) = Throw message →
  length (seeding files pgclient).1 = S n
  ∧ (seeding files pgclient).2 = Throw message
  ∧ (c ≠ End → End ∉ (seeding files pgclient).1).
Proof.
  intros Hn Hc Ht. leaves files pgclient h r; cbn [fst snd] in *.
  all: repeat (destruct n as [|n];
         [ injection Hn as <-; first [ by destruct (Hc _ eq_refl) | cbn [take] in Ht ];
           first [ congruence
                 | split; [reflexivity|]; split; [congruence|];
                   intros ? Hin;
                   repeat (apply elem_of_cons in Hin as [Hin|Hin]; [congruence|]);
                   by apply elem_of_nil in Hin ]
         | cbn [lookup list_lookup] in Hn ]).
  all: discriminate Hn.
Qed.

End Seeding.

(** ** The further theorems at concrete inputs *)

Module Instances.
Import Constants Utils Queries Routes Vocabulary Sample Probes Fixtures Summary.

(** X1: 1 March as the start and 28 February as the end. *)
Lemma range_check_is_calendar_order_witness :
  out_of_order (Some "2021-03-01") (Some "2021-02-28") = true
  ↔ day 2021 2 28 < day 2021 3 1.
Proof.
  apply (RangeCheck.range_check_is_calendar_order "2021-03-01" "2021-02-28");
    reflexivity.
Defined.

(** X2: daily buckets from a start date for one user. *)
Lemma timeseries_placeholders_number_the_parameters_witness :
  ∃ sql params,
    getTimeSeries_statement "day" (Some "2021-01-01") None (Some (Finite 7)) None
    = Return (sql, params)
    ∧ placeholders sql = seqZ 1 (Z.of_nat (length params)).
Proof.
  eexists _, _. split; [reflexivity|].
  apply (Placeholders.timeseries_placeholders_number_the_parameters
           "day" (Some "2021-01-01") None (Some (Finite 7)) None).
  reflexivity.
Defined.

(** X5: an unknown granularity, over the sample data base and over one that
    cannot be reached. *)
Lemma validation_precedes_the_database_witness :
  timeseries (RT := whole_numbers) (DB := sample_database)
    (request [("granularity", "hourly")])
  = timeseries (RT := whole_numbers) (DB := unreachable)
      (request [("granularity", "hourly")]).
Proof.
  apply (proj1 (Responses.validation_precedes_the_database (RT := whole_numbers)
                  sample_database unreachable empty_sales unreachable_summary
                  (request [("granularity", "hourly")]))).
  reflexivity.
Defined.

(** X6: the time series over sales without amounts. *)
Lemma internal_error_is_a_failed_query_or_a_null_witness :
  status_of (timeseries (RT := whole_numbers) (DB := unpriced) (request []))
  = HTTP_STATUS.INTERNAL_ERROR.
Proof.
  apply (proj1 (proj2 (Responses.internal_error_is_a_failed_query_or_a_null
                         (RT := whole_numbers) (DB := unpriced) (request [])))).
  split; [discriminate|].
  eexists _, _. split; [reflexivity|]. right.
  eexists _, _. split; [reflexivity|]. split; [apply list_elem_of_here|].
  right. reflexivity.
Defined.

(** X8: the summary over a table without sales. *)
Lemma summary_fails_on_null_aggregates_witness :
  summary (RT := whole_numbers) (DB := empty_sales) (request [])
  = sendError HTTP_STATUS.INTERNAL_ERROR ERROR_CODES.INTERNAL_ERROR
      "Failed to fetch summary statistics".
Proof.
  apply (Responses.summary_fails_on_null_aggregates (RT := whole_numbers)
           (SB := empty_sales) (request []) no_sale []);
    [reflexivity|reflexivity|].
  intros ([? [=]] & _).
Defined.

(** X9: an empty [start_date]. *)
Lemma unusable_text_is_no_parameter_witness :
  timeseries (RT := whole_numbers) (DB := sample_database)
    (with_value "start_date" (Str "") (request []))
  = timeseries (RT := whole_numbers) (DB := sample_database)
      (without_param "start_date" (request [])).
Proof.
  destruct (Unusable.unusable_text_is_no_parameter (RT := whole_numbers)
              (DB := sample_database) (SB := empty_sales)
              "start_date" (Str "") (request [])) as [H _];
    [by apply (bool_decide_unpack _)|reflexivity|exact H].
Defined.

(** X10: the limit [abc]. *)
Lemma unusable_number_is_no_parameter_witness :
  users (RT := whole_numbers) (DB := sample_database)
    (with_value "limit" (Str "abc") (request []))
  = users (RT := whole_numbers) (DB := sample_database)
      (without_param "limit" (request [])).
Proof.
  destruct (Unusable.unusable_number_is_no_parameter (RT := whole_numbers)
              (DB := sample_database) "limit" (Str "abc") (request []))
    as (_ & H & _);
    [by apply (bool_decide_unpack _)|reflexivity|exact H].
Defined.

(** X12: three rows. *)
Lemma leaderboard_ranks_the_rows_in_order_witness :
  ∃ entries,
    getLeaderboard (DB := ranking) None None (Some (Finite 3)) = Return entries
    ∧ LeaderboardEntry.rank <$> entries = [Finite 1; Finite 2; Finite 3]
    ∧ LeaderboardEntry.user_name <$> entries = ["Carol"; "Alice"; "Bob"]
    ∧ LeaderboardEntry.total_revenue <$> entries
      = [Finite 900; Finite 500; Finite 100].
Proof.
  destruct (Rows.leaderboard_ranks_the_rows_in_order (DB := ranking)
              None None (Some (Finite 3)) podium eq_refl)
    as (entries & Hentries & Hrank & _ & Hname & _ & Hrevenue & _).
  exists entries. split; [exact Hentries|].
  split; [exact Hrank|]. split; [exact Hname|exact Hrevenue].
Defined.


(** X14: hourly buckets. *)
Lemma getTimeSeries_refuses_other_granularities_witness :
  getTimeSeries (RT := whole_numbers) (DB := sample_database)
    "hourly" None None None None
  = Throw "Invalid granularity: hourly".
Proof.
  apply (Rows.getTimeSeries_refuses_other_granularities (RT := whole_numbers)
           (DB := sample_database) "hourly" None None None None).
  reflexivity.
Defined.

(** X17: the users table exists. *)
Lemma seed_run_to_completion_witness :
  ∃ usersTableExists rows,
    seeded [Seed.Connect; Seed.Query Seed.usersTableExistsQuery]
    = Return (usersTableExists :: rows)
    ∧ Seed.queries (seeding files seeded).1
      = (if usersTableExists : bool then [Seed.usersTableExistsQuery]
         else seed_statements files)
    ∧ last (seeding files seeded).1 = Some Seed.End.
Proof. apply (Seeding.seed_run_to_completion files seeded). reflexivity. Defined.

(** X18: the first CREATE TABLE is refused. *)
Lemma seed_stops_at_first_failure_witness :
  length (seeding files denied).1 = 4%nat
  ∧ (seeding files denied).2 = Throw "permission denied for schema public"
  ∧ (Seed.Query Seed.createUsersTableQuery ≠ Seed.End
     → Seed.End ∉ (seeding files denied).1).
Proof.
  apply (Seeding.seed_stops_at_first_failure files denied 3
           (Seed.Query Seed.createUsersTableQuery)
           "permission denied for schema public");
    [reflexivity|intros text [=]|reflexivity].
Defined.

(** X15: 15 January 2021 at midnight. *)
Lemma formatDateString_keeps_the_date_witness :
  formatDateString (RT := whole_numbers) (day 2021 1 15 * JS.msPerDay) = "2021-01-15".
Proof.
  apply (Formatting.formatDateString_keeps_the_date (RT := whole_numbers)
           "2021-01-15" "00:00:00.000Z"); reflexivity.
Defined.

End Instances.
